(** * Listing draft synthesis of the eBay automation tool

    A shallow embedding of [ListingGenerator] in [src/simple_mobile_app.py]
    (image analysis, response parsing, coercion, mock fallback) and of the
    retry loop of [OpenAIVisionService._call_openai_vision] in
    [src/services/vision_service.py].

    Python values are modelled as follows.
    - A Python [float] is an IEEE double: a finite value [m * 2^k], an
      infinity or NaN.  Conversions from integers, decimal literals and
      true division round to the nearest double (ties to even).
    - A Python [str] is a Rocq [string]; one Rocq character stands for one
      code point.
    - A parsed JSON document is a [jvalue]; a JSON object keeps its
      key/value pairs in order and a lookup sees the last binding of a key,
      as a Python dict built by [json.loads] does.
    - A raised exception is the [Raise] branch of the result type [pyres]. *)

From Stdlib Require Import ZArith String Ascii List Bool Lia.
Import ListNotations.
Open Scope string_scope.
Open Scope Z_scope.
#[local] Set Warnings "-register-all".

(** ** Python exceptions and results *)

Inductive exn :=
| ValueError (msg : string)
| TypeError
| KeyError
| IndexError
| AttributeError
| OverflowError
| JSONDecodeError
| ClientError.   (* aiohttp connection errors and timeouts *)

Inductive pyres (A : Type) :=
| Ok (a : A)
| Raise (e : exn).
Arguments Ok {A} a.
Arguments Raise {A} e.

Definition bind {A B} (m : pyres A) (f : A -> pyres B) : pyres B :=
  match m with
  | Ok a => f a
  | Raise e => Raise e
  end.

Notation "'let*' x ':=' m 'in' f" := (bind m (fun x => f))
  (at level 200, x name, m at level 100, f at level 200).

(** ** Doubles *)

Inductive pyfloat :=
| Fin (m : Z) (k : Z)     (* the value m * 2^k *)
| Inf (neg : bool)
| NaN.

(** Floor of log2 (a / d), for a, d > 0. *)
Definition flog2 (a d : Z) : Z :=
  let e := Z.log2 a - Z.log2 d in
  if (if 0 <=? e then d * 2 ^ e <=? a else d <=? a * 2 ^ (- e)) then e else e - 1.

(** Division rounded to the nearest integer, ties to even. *)
Definition div_round_even (n d : Z) : Z :=
  let q := n / d in
  let r := n mod d in
  if (d <? 2 * r) || ((2 * r =? d) && Z.odd q) then q + 1 else q.

(** The double nearest to n / d (d > 0), as CPython computes it for
    [float(int)], for decimal literals and for [int / int]. *)
Definition round_rat (n d : Z) : pyfloat :=
  if n =? 0 then Fin 0 0 else
  let a := Z.abs n in
  let k := Z.max (flog2 a d - 52) (-1074) in
  let q := if 0 <=? k then div_round_even a (d * 2 ^ k)
           else div_round_even (a * 2 ^ (- k)) d in
  if (0 <=? k) && (2 ^ 1024 <=? q * 2 ^ k) then Inf (n <? 0)
  else Fin (if n <? 0 then - q else q) k.

Definition float_of_Z (z : Z) : pyfloat := round_rat z 1.

(** [int(x)] for a float: truncation toward zero. *)
Definition py_int_of_float (f : pyfloat) : pyres Z :=
  match f with
  | Fin m k => Ok (if 0 <=? k then m * 2 ^ k else Z.quot m (2 ^ (- k)))
  | Inf _ => Raise OverflowError
  | NaN => Raise (ValueError "cannot convert float NaN to integer")
  end.

(** [float(z)] for a Python int: raises [OverflowError] when too large. *)
Definition py_float_of_int (z : Z) : pyres pyfloat :=
  match float_of_Z z with
  | Inf _ => Raise OverflowError
  | f => Ok f
  end.

(** [a / b] for Python ints ([b <> 0]). *)
Definition py_truediv_int (a b : Z) : pyres pyfloat :=
  match (if 0 <? b then round_rat a b else round_rat (- a) (- b)) with
  | Inf _ => Raise OverflowError
  | f => Ok f
  end.

(** [x * y] for two floats (finite operands). *)
Definition py_mul_float (x y : pyfloat) : pyfloat :=
  match x, y with
  | Fin m1 k1, Fin m2 k2 =>
      let m := m1 * m2 in let k := k1 + k2 in
      if 0 <=? k then round_rat (m * 2 ^ k) 1 else round_rat m (2 ^ (- k))
  | _, _ => NaN
  end.

(** Python truthiness of a float. *)
Definition float_truthy (f : pyfloat) : bool :=
  match f with Fin m _ => negb (m =? 0) | _ => true end.

(** [x <= y] on floats (false whenever NaN is involved). *)
Definition float_le (x y : pyfloat) : bool :=
  match x, y with
  | Fin m1 k1, Fin m2 k2 =>
      let k := Z.min k1 k2 in
      m1 * 2 ^ (k1 - k) <=? m2 * 2 ^ (k2 - k)
  | Inf true, (Fin _ _ | Inf _) => true
  | Fin _ _, Inf false => true
  | Inf false, Inf false => true
  | _, _ => false
  end.

(** ** Strings *)

Definition chr (n : nat) : ascii := ascii_of_nat n.

(** [str.isspace] on one character. *)
Definition py_isspace (c : ascii) : bool :=
  let n := nat_of_ascii c in
  ((9 <=? n) && (n <=? 13))%nat || ((28 <=? n) && (n <=? 32))%nat
  || (n =? 133)%nat || (n =? 160)%nat.

Fixpoint drop_space (l : list ascii) : list ascii :=
  match l with
  | c :: r => if py_isspace c then drop_space r else l
  | [] => []
  end.

(** [s.strip()] *)
Definition py_strip (s : string) : string :=
  string_of_list_ascii (rev (drop_space (rev (drop_space (list_ascii_of_string s))))).

(** [s[:n]] *)
Definition py_prefix (n : nat) (s : string) : string := substring 0 n s.

(** Python truthiness of a string. *)
Definition str_truthy (s : string) : bool :=
  match s with EmptyString => false | _ => true end.

(** [c in s] for a one-character [c]. *)
Definition py_contains_char (c : ascii) (s : string) : bool :=
  existsb (fun d => Ascii.eqb c d) (list_ascii_of_string s).

(** [s.split(c, 1)] when [c] occurs in [s]: the parts before and after
    the first occurrence. *)
Fixpoint split_first (c : ascii) (l : list ascii) : list ascii * list ascii :=
  match l with
  | [] => ([], [])
  | d :: r => if Ascii.eqb c d then ([], r)
              else let (a, b) := split_first c r in (d :: a, b)
  end.

(** [s.rsplit(".", 1)[0]]: everything before the last dot, or [s]. *)
Definition py_rsplit_dot_head (s : string) : string :=
  let l := list_ascii_of_string s in
  let r := rev l in
  if existsb (fun d => Ascii.eqb "." d) r
  then string_of_list_ascii (rev (snd (split_first "." r)))
  else s.

(** [s.replace(a, b)] for one-character [a] and [b]. *)
Definition py_replace_char (a b : ascii) (s : string) : string :=
  string_of_list_ascii
    (map (fun d => if Ascii.eqb a d then b else d) (list_ascii_of_string s)).

Fixpoint digits_rev (fuel : nat) (n : Z) : list ascii :=
  match fuel with
  | O => []
  | S f => let c := chr (48 + Z.to_nat (n mod 10)) in
           if n <? 10 then [c] else c :: digits_rev f (n / 10)
  end.

(** [str(z)] for a Python int. *)
Definition Z_to_string (z : Z) : string :=
  let d := string_of_list_ascii
             (rev (digits_rev (S (Z.to_nat (Z.log2 (Z.abs z)))) (Z.abs z))) in
  if z <? 0 then "-" ++ d else d.

(** Zero-padded decimal of [n] on [w] digits. *)
Definition pad_digits (w : nat) (n : Z) : string :=
  let d := Z_to_string n in
  string_of_list_ascii (repeat "0"%char (w - String.length d)) ++ d.

(** [str(f)] for a float.  Integral values print as [<digits>.0]; other
    finite values print their exact decimal expansion (CPython prints the
    shortest string that reads back to the same double, and switches to
    exponent notation for large and small magnitudes: those renderings are
    not modelled digit for digit, and no property below depends on them). *)
Definition float_to_string (f : pyfloat) : string :=
  match f with
  | Inf false => "inf"
  | Inf true => "-inf"
  | NaN => "nan"
  | Fin m k =>
      if 0 <=? k then Z_to_string (m * 2 ^ k) ++ ".0"
      else
        let a := Z.abs m * 5 ^ (- k) in
        let p := 10 ^ (- k) in
        let s := Z_to_string (a / p) ++ "." ++ pad_digits (Z.to_nat (- k)) (a mod p) in
        if m <? 0 then "-" ++ s else s
  end.

(** ** JSON values as [json.loads] returns them *)

Inductive jvalue :=
| JNull
| JBool (b : bool)
| JInt (z : Z)
| JFloat (f : pyfloat)
| JStr (s : string)
| JList (l : list jvalue)
| JDict (kvs : list (string * jvalue)).

(** [d.get(k)] on a dict: the last binding of [k] wins. *)
Definition dget (k : string) (kvs : list (string * jvalue)) : option jvalue :=
  fold_left (fun acc kv => if String.eqb k (fst kv) then Some (snd kv) else acc)
            kvs None.

(** Python truthiness. *)
Definition truthy (v : jvalue) : bool :=
  match v with
  | JNull => false
  | JBool b => b
  | JInt z => negb (z =? 0)
  | JFloat f => float_truthy f
  | JStr s => str_truthy s
  | JList l => match l with [] => false | _ => true end
  | JDict kvs => match kvs with [] => false | _ => true end
  end.

Definition join (sep : string) (l : list string) : string :=
  match l with
  | [] => ""
  | x :: r => fold_left (fun acc y => acc ++ sep ++ y) r x
  end.

(** [repr(v)].  Strings are quoted with single quotes and not escaped
    (CPython picks the quote character and escapes special characters). *)
Fixpoint py_repr (v : jvalue) : string :=
  match v with
  | JNull => "None"
  | JBool true => "True"
  | JBool false => "False"
  | JInt z => Z_to_string z
  | JFloat f => float_to_string f
  | JStr s => "'" ++ s ++ "'"
  | JList l => "[" ++ join ", " (map py_repr l) ++ "]"
  | JDict kvs =>
      "{" ++ join ", " (map (fun kv => "'" ++ fst kv ++ "': " ++ py_repr (snd kv)) kvs)
      ++ "}"
  end.

(** [str(v)] *)
Definition py_str (v : jvalue) : string :=
  match v with
  | JStr s => s
  | _ => py_repr v
  end.

(** ** Number syntax *)

Definition is_digit (c : ascii) : bool :=
  ((48 <=? nat_of_ascii c) && (nat_of_ascii c <=? 57))%nat.

Definition digit_val (c : ascii) : Z := Z.of_nat (nat_of_ascii c) - 48.

(** A run of decimal digits; with [us], single underscores may separate
    digits (the grammar of [float(str)]). Returns the value, the number of
    digits and the rest. *)
Fixpoint scan_digits (us : bool) (l : list ascii) (acc : Z) (n : nat)
  : Z * nat * list ascii :=
  match l with
  | c :: r =>
      if is_digit c then scan_digits us r (acc * 10 + digit_val c) (S n)
      else if us && Ascii.eqb c "_" && (0 <? n)%nat then
        match r with
        | d :: _ => if is_digit d then scan_digits us r acc n else (acc, n, l)
        | [] => (acc, n, l)
        end
      else (acc, n, l)
  | [] => (acc, n, [])
  end.

(** The double nearest to [mant * 10^e]. *)
Definition decimal_to_float (mant e : Z) : pyfloat :=
  if 0 <=? e then round_rat (mant * 10 ^ e) 1 else round_rat mant (10 ^ (- e)).

(** Optional exponent part [e[+-]digits]: the exponent and the rest; [None]
    when an [e] is not followed by digits. *)
Definition scan_exponent (us : bool) (l : list ascii) : option (Z * list ascii) :=
  match l with
  | c :: r =>
      if Ascii.eqb c "e" || Ascii.eqb c "E" then
        let '(sg, r1) := match r with
                         | "+"%char :: r' => (1, r')
                         | "-"%char :: r' => (-1, r')
                         | _ => (1, r)
                         end in
        let '(v, n, r2) := scan_digits us r1 0 0 in
        if (n =? 0)%nat then None else Some (sg * v, r2)
      else Some (0, l)
  | [] => Some (0, [])
  end.

Definition lower (c : ascii) : ascii :=
  let n := nat_of_ascii c in
  if ((65 <=? n) && (n <=? 90))%nat then chr (n + 32) else c.

(** [float(s)] for a string: [None] is the [ValueError]. *)
Definition py_float_of_string (s : string) : option pyfloat :=
  let l := list_ascii_of_string (py_strip s) in
  let '(neg, l1) := match l with
                    | "-"%char :: r => (true, r)
                    | "+"%char :: r => (false, r)
                    | _ => (false, l)
                    end in
  let w := string_of_list_ascii (map lower l1) in
  if String.eqb w "inf" || String.eqb w "infinity" then Some (Inf neg)
  else if String.eqb w "nan" then Some NaN
  else
    let '(ip, ni, r1) := scan_digits true l1 0 0 in
    let '(mant, nf, r2) :=
      match r1 with
      | "."%char :: r => scan_digits true r ip 0
      | _ => (ip, 0%nat, r1)
      end in
    if ((ni + nf) =? 0)%nat then None else
    match scan_exponent true r2 with
    | Some (e, []) =>
        Some (decimal_to_float (if neg then - mant else mant) (e - Z.of_nat nf))
    | _ => None
    end.

(** ** [json.loads] *)

Definition json_ws (c : ascii) : bool :=
  let n := nat_of_ascii c in ((n =? 32) || (n =? 9) || (n =? 10) || (n =? 13))%nat.

Fixpoint skip_jws (l : list ascii) : list ascii :=
  match l with
  | c :: r => if json_ws c then skip_jws r else l
  | [] => []
  end.

Definition hex_val (c : ascii) : option Z :=
  let n := Z.of_nat (nat_of_ascii c) in
  if (48 <=? n) && (n <=? 57) then Some (n - 48)
  else if (97 <=? n) && (n <=? 102) then Some (n - 87)
  else if (65 <=? n) && (n <=? 70) then Some (n - 55)
  else None.

(** A [\uXXXX] escape; code points above 255 are outside the character
    model and are read as ['?']. *)
Definition unicode_escape (h1 h2 h3 h4 : ascii) : option ascii :=
  match hex_val h1, hex_val h2, hex_val h3, hex_val h4 with
  | Some a, Some b, Some c, Some d =>
      let v := ((a * 16 + b) * 16 + c) * 16 + d in
      Some (if v <? 256 then chr (Z.to_nat v) else "?"%char)
  | _, _, _, _ => None
  end.

(** The double quote, character 34. *)
Definition dquote : ascii := Ascii false true false false false true false false.

(** The body of a JSON string, after its opening quote (strict mode:
    control characters are rejected). *)
Fixpoint parse_jstring (l : list ascii) (acc : list ascii) : option (string * list ascii) :=
  match l with
  | Ascii false true false false false true false false :: r =>
      Some (string_of_list_ascii (rev acc), r)
  | "\"%char :: "u"%char :: h1 :: h2 :: h3 :: h4 :: r =>
      match unicode_escape h1 h2 h3 h4 with
      | Some c => parse_jstring r (c :: acc)
      | None => None
      end
  | "\"%char :: e :: r =>
      let n := nat_of_ascii e in
      match (if (n =? 34) || (n =? 92) || (n =? 47) then Some e
             else if n =? 98 then Some (chr 8)
             else if n =? 102 then Some (chr 12)
             else if n =? 110 then Some (chr 10)
             else if n =? 114 then Some (chr 13)
             else if n =? 116 then Some (chr 9)
             else None)%nat with
      | Some c => parse_jstring r (c :: acc)
      | None => None
      end
  | c :: r => if (nat_of_ascii c <? 32)%nat then None else parse_jstring r (c :: acc)
  | [] => None
  end.

(** A JSON number: an optional minus, then [0] or a digit run not starting
    with [0], an optional fraction [.digits] and an optional exponent
    [e[+-]digits]; an int when it has neither fraction nor exponent, else
    a float. *)
Definition parse_jnumber (l : list ascii) : option (jvalue * list ascii) :=
  let '(neg, l1) := match l with "-"%char :: r => (true, r) | _ => (false, l) end in
  let int_part :=
    match l1 with
    | "0"%char :: r => Some (0, r)
    | c :: _ => if is_digit c then let '(v, _, r) := scan_digits false l1 0 0 in Some (v, r)
                else None
    | [] => None
    end in
  match int_part with
  | None => None
  | Some (ip, r1) =>
      let frac :=
        match r1 with
        | "."%char :: r => let '(v, n, r') := scan_digits false r ip 0 in
                           if (n =? 0)%nat then None else Some (v, n, true, r')
        | _ => Some (ip, 0%nat, false, r1)
        end in
      match frac with
      | None => None
      | Some (mant, nf, hasfrac, r2) =>
          let exp :=
            match r2 with
            | c :: _ => if Ascii.eqb c "e" || Ascii.eqb c "E"
                        then match scan_exponent false r2 with
                             | Some (e, r3) => Some (e, true, r3)
                             | None => None
                             end
                        else Some (0, false, r2)
            | [] => Some (0, false, r2)
            end in
          let sgn := if neg then -1 else 1 in
          match exp with
          | None => if hasfrac then Some (JFloat (decimal_to_float (sgn * mant) (- Z.of_nat nf)), r2)
                    else Some (JInt (sgn * mant), r2)
          | Some (e, hasexp, r3) =>
              if hasfrac || hasexp
              then Some (JFloat (decimal_to_float (sgn * mant) (e - Z.of_nat nf)), r3)
              else Some (JInt (sgn * mant), r3)
          end
      end
  end.

(** The elements of a JSON array after its first element starts; [pv]
    parses one value. *)
Fixpoint parse_elems (pv : list ascii -> option (jvalue * list ascii))
  (fuel : nat) (l : list ascii) (acc : list jvalue) : option (jvalue * list ascii) :=
  match fuel with
  | O => None
  | S f =>
      match pv (skip_jws l) with
      | None => None
      | Some (v, r) =>
          match skip_jws r with
          | c :: r' =>
              if Ascii.eqb c "," then parse_elems pv f r' (v :: acc)
              else if Ascii.eqb c "]" then Some (JList (rev (v :: acc)), r')
              else None
          | [] => None
          end
      end
  end.

(** The members of a JSON object after its opening brace. *)
Fixpoint parse_members (pv : list ascii -> option (jvalue * list ascii))
  (fuel : nat) (l : list ascii) (acc : list (string * jvalue))
  : option (jvalue * list ascii) :=
  match fuel with
  | O => None
  | S f =>
      match skip_jws l with
      | [] => None
      | q :: r =>
          if negb (Ascii.eqb q dquote) then None else
          match parse_jstring r [] with
          | None => None
          | Some (k, r1) =>
              match skip_jws r1 with
              | [] => None
              | colon :: r2 =>
                  if negb (Ascii.eqb colon ":") then None else
                  match pv (skip_jws r2) with
                  | None => None
                  | Some (v, r3) =>
                      match skip_jws r3 with
                      | [] => None
                      | c :: r4 =>
                          if Ascii.eqb c "," then parse_members pv f r4 ((k, v) :: acc)
                          else if Ascii.eqb c "}" then Some (JDict (rev ((k, v) :: acc)), r4)
                          else None
                      end
                  end
              end
          end
      end
  end.

Fixpoint strip_prefix (p l : list ascii) : option (list ascii) :=
  match p, l with
  | [], _ => Some l
  | a :: p', b :: l' => if Ascii.eqb a b then strip_prefix p' l' else None
  | _ :: _, [] => None
  end.

(** The literal names of the JSON decoder: [null], [true], [false], and
    Python's extensions [NaN], [Infinity] and [-Infinity]. *)
Definition json_constants : list (string * jvalue) :=
  [("null", JNull); ("true", JBool true); ("false", JBool false);
   ("NaN", JFloat NaN); ("Infinity", JFloat (Inf false)); ("-Infinity", JFloat (Inf true))].

Fixpoint match_constant (cs : list (string * jvalue)) (l : list ascii)
  : option (jvalue * list ascii) :=
  match cs with
  | [] => None
  | (w, v) :: rest =>
      match strip_prefix (list_ascii_of_string w) l with
      | Some l' => Some (v, l')
      | None => match_constant rest l
      end
  end.

(** One JSON value at the head of [l] (no leading whitespace).  A number
    never starts like one of the constants, so trying the constants first
    agrees with the scanner's order. *)
Fixpoint parse_jvalue (fuel : nat) (l : list ascii) : option (jvalue * list ascii) :=
  match fuel with
  | O => None
  | S f =>
      match l with
      | [] => None
      | c :: r =>
          if Ascii.eqb c dquote then
            match parse_jstring r [] with
            | Some (s, r') => Some (JStr s, r')
            | None => None
            end
          else if Ascii.eqb c "{" then
            match skip_jws r with
            | [] => None
            | c' :: r' => if Ascii.eqb c' "}" then Some (JDict [], r')
                          else parse_members (parse_jvalue f) f r []
            end
          else if Ascii.eqb c "[" then
            match skip_jws r with
            | [] => None
            | c' :: r' => if Ascii.eqb c' "]" then Some (JList [], r')
                          else parse_elems (parse_jvalue f) f r []
            end
          else
            match match_constant json_constants l with
            | Some x => Some x
            | None => parse_jnumber l
            end
      end
  end.

(** [json.loads(s)] for a [str]: [None] is the [JSONDecodeError].  Every
    nesting level and every array element or object member consumes at
    least one character, so [length + 1] steps of fuel never run out
    Not modelled: the [RecursionError] Python raises on deeply nested input,
    and the [ValueError] of Python 3.11+ on integers of more than 4300
    digits; on such input this function returns a value where Python
    raises. *)
Definition json_loads (s : string) : option jvalue :=
  let l := list_ascii_of_string s in
  match parse_jvalue (S (length l)) (skip_jws l) with
  | Some (v, r) => match skip_jws r with [] => Some v | _ => None end
  | None => None
  end.

Fixpoint drop_until (c : ascii) (l : list ascii) : list ascii :=
  match l with
  | d :: r => if Ascii.eqb c d then l else drop_until c r
  | [] => []
  end.

(** [re.search(r"\{.*\}", s, re.S)]: from the first ["{"] to the last
    ["}"] after it. *)
Definition regex_brace_search (s : string) : option string :=
  match drop_until "{" (list_ascii_of_string s) with
  | [] => None
  | suffix =>
      match drop_until "}" (rev suffix) with
      | [] => None
      | r => Some (string_of_list_ascii (rev r))
      end
  end.

(** ** [ListingGenerator] ([src/simple_mobile_app.py]) *)

Record ProductInfo := {
  name : string;
  category : string;
  condition : string;
  brand : option string;
  features : list string
}.

Record ListingDraft := {
  product : ProductInfo;
  estimated_value_range : Z * Z;
  suggested_keywords : list string;
  condition_details : string;
  confidence_score : pyfloat;
  listing_title : string;
  listing_description : string;
  recommended_price : Z;
  shipping_suggestion : string;
  source : string
}.

Definition nl : string := String (chr 10) EmptyString.

(** [float(v)] *)
Definition py_float (v : jvalue) : pyres pyfloat :=
  match v with
  | JNull => Raise TypeError
  | JBool b => Ok (if b then float_of_Z 1 else float_of_Z 0)
  | JInt z => py_float_of_int z
  | JFloat f => Ok f
  | JStr s => match py_float_of_string s with
              | Some f => Ok f
              | None => Raise (ValueError "could not convert string to float")
              end
  | JList _ | JDict _ => Raise TypeError
  end.

(** [to_int] nested in [_build_result]: [int(float(value))], with
    [TypeError] and [ValueError] mapped to [default]; an [OverflowError]
    (infinite value, or an int too large for a float) escapes. *)
Definition to_int (value : jvalue) (default : Z) : pyres Z :=
  match bind (py_float value) py_int_of_float with
  | Ok z => Ok z
  | Raise TypeError | Raise (ValueError _) => Ok default
  | Raise e => Raise e
  end.

(** [to_str_list] nested in [_build_result]. *)
Definition to_str_list (value : jvalue) : list string :=
  match value with
  | JList l => map (fun item => py_strip (py_str item))
                   (filter (fun item => str_truthy (py_strip (py_str item))) l)
  | _ => []
  end.

(** [d.get(k)] with the default [None]. *)
Definition get (kvs : list (string * jvalue)) (k : string) : jvalue :=
  match dget k kvs with Some v => v | None => JNull end.

(** [x or y] *)
Definition py_or (x y : jvalue) : jvalue := if truthy x then x else y.

(** The branches on [price_range] in [_build_result]: (min_val, max_val)
    before the clamps. *)
Definition coerce_range (price_range : jvalue) : pyres (Z * Z) :=
  match price_range with
  | JDict kvs =>
      let* min_val := to_int (get kvs "min") 0 in
      let* max_val := to_int (get kvs "max") min_val in
      Ok (min_val, max_val)
  | JStr s =>
      if py_contains_char "-" s then
        let '(p0, p1) := split_first "-" (list_ascii_of_string s) in
        let* min_val := to_int (JStr (string_of_list_ascii p0)) 0 in
        let* max_val := to_int (JStr (string_of_list_ascii p1)) min_val in
        Ok (min_val, max_val)
      else
        let* v := to_int price_range 0 in Ok (v, v)
  | JBool _ | JInt _ | JFloat _ =>
      let* v := to_int price_range 0 in Ok (v, v)
  | JNull | JList _ => Ok (0, 0)
  end.

Definition default_confidence : jvalue := JFloat (decimal_to_float 6 (-1)).

Definition _build_result (data : jvalue) (source : string) : pyres ListingDraft :=
  match data with
  | JDict kvs =>
      let price_range := match dget "estimated_value_eur" kvs with
                         | Some v => v | None => JDict [] end in
      let* bounds := coerce_range price_range in
      let '(min0, max0) := bounds in
      let min_val := if min0 <=? 0 then 20 else min0 in
      let max_val := if max0 <? min_val then min_val else max0 in
      let* rec0 := to_int (get kvs "price_recommendation_eur") 0 in
      let* recommended_price :=
        if rec0 <=? 0 then
          let* m := py_truediv_int (min_val + max_val) 2 in py_int_of_float m
        else Ok rec0 in
      let product := {|
        name := py_str (py_or (get kvs "product_name") (JStr "Unbekanntes Produkt"));
        category := py_str (py_or (get kvs "category") (JStr "Sonstiges"));
        condition := py_str (py_or (get kvs "condition") (JStr "Gebraucht"));
        brand := let b := py_str (py_or (get kvs "brand") (JStr "")) in
                 if str_truthy b then Some b else None;
        features := to_str_list (get kvs "features") |} in
      let title := py_strip (py_str (py_or (get kvs "listing_title") (JStr product.(name)))) in
      let desc0 := py_strip (py_str (py_or (get kvs "listing_description") (JStr ""))) in
      let desc := if str_truthy desc0 then desc0 else
        product.(name) ++ " in " ++ product.(condition) ++ "em Zustand." ++ nl
        ++ "- Kategorie: " ++ product.(category) ++ nl
        ++ "- Versand nach Absprache" ++ nl in
      let* conf := py_float (py_or (get kvs "confidence_score") default_confidence) in
      Ok {|
        product := product;
        estimated_value_range := (min_val * 100, max_val * 100);
        suggested_keywords := to_str_list (get kvs "suggested_keywords");
        condition_details := py_str (py_or (get kvs "condition_details") (JStr ""));
        confidence_score := conf;
        listing_title := py_prefix 80 title;
        listing_description := desc;
        recommended_price := recommended_price * 100;
        shipping_suggestion :=
          py_str (py_or (get kvs "shipping_suggestion") (JStr "Versand nach Absprache"));
        source := source |}
  | _ => Raise AttributeError   (* [data.get] on a non-dict *)
  end.

(** The product name [_mock_result] derives from the file name. *)
Definition mock_product_name (filename : option string) : string :=
  match filename with
  | Some f =>
      if str_truthy f then
        let n := py_strip (py_replace_char "_" " " (py_rsplit_dot_head f)) in
        if str_truthy n then n else "Produkt"
      else "Produkt"
  | None => "Produkt"
  end.

Definition mock_confidence : pyfloat := decimal_to_float 4 (-1).

Definition _mock_result (filename : option string) (note : string) : pyres ListingDraft :=
  let product := {|
    name := mock_product_name filename;
    category := "Sonstiges";
    condition := "Gebraucht";
    brand := None;
    features := ["Funktionsfaehig"; "Gepflegt"; "Sofort einsatzbereit"] |} in
  let min_val := 20 in
  let max_val := 35 in
  let* half := py_truediv_int (min_val + max_val) 2 in
  let* recommended := py_int_of_float (py_mul_float half (float_of_Z 100)) in
  Ok {|
    product := product;
    estimated_value_range := (min_val * 100, max_val * 100);
    suggested_keywords := ["gebraucht"; "top zustand"; "schneller versand"];
    condition_details := note;
    confidence_score := mock_confidence;
    listing_title := py_prefix 80 (py_strip (product.(name) ++ " - " ++ product.(condition)));
    listing_description :=
      product.(name) ++ " in " ++ product.(condition) ++ "em Zustand." ++ nl
      ++ "- Lieferung wie abgebildet" ++ nl
      ++ "- Privatverkauf, keine Garantie" ++ nl;
    recommended_price := recommended;
    shipping_suggestion := "DHL Paket oder Abholung";
    source := "mock" |}.

(** ** The live path *)

(** [base64.b64encode(data).decode("utf-8")] *)
Definition b64_char (n : Z) : ascii :=
  if n <? 26 then chr (Z.to_nat (65 + n))
  else if n <? 52 then chr (Z.to_nat (71 + n))
  else if n <? 62 then chr (Z.to_nat (n - 4))
  else if n =? 62 then "+" else "/".

Fixpoint b64_encode (l : list Z) : list ascii :=
  match l with
  | a :: b :: c :: r =>
      let n := a * 65536 + b * 256 + c in
      b64_char (n / 262144) :: b64_char ((n / 4096) mod 64)
        :: b64_char ((n / 64) mod 64) :: b64_char (n mod 64) :: b64_encode r
  | [a; b] =>
      let n := a * 65536 + b * 256 in
      [b64_char (n / 262144); b64_char ((n / 4096) mod 64);
       b64_char ((n / 64) mod 64); "="%char]
  | [a] =>
      let n := a * 65536 in
      [b64_char (n / 262144); b64_char ((n / 4096) mod 64); "="%char; "="%char]
  | [] => []
  end.

Definition base64_image (image_data : list Byte.byte) : string :=
  string_of_list_ascii (b64_encode (map (fun b => Z.of_N (Byte.to_N b)) image_data)).

(** What one POST to [/chat/completions] gives back: an aiohttp error
    (connection failure, timeout), or a response with its status, its
    body text and its body as JSON ([None] when [response.json()]
    raises). *)
Inductive http_outcome :=
| HttpClientError
| HttpResponse (status : Z) (text : string) (body : option jvalue).

(** The endpoint: the outcome of a request for a base64 image (model,
    prompt and credentials are fixed configuration). *)
Definition endpoint := string -> http_outcome.

(** [ListingGenerator._call_openai_vision]: a single POST. *)
Definition _call_openai_vision (response : http_outcome) : pyres jvalue :=
  match response with
  | HttpClientError => Raise ClientError
  | HttpResponse status error_text body =>
      if negb (status =? 200) then
        Raise (ValueError ("OpenAI API error " ++ Z_to_string status ++ ": " ++ error_text))
      else match body with
           | Some j => Ok j
           | None => Raise JSONDecodeError
           end
  end.

(** [v[k]] for a string key. *)
Definition getitem_key (v : jvalue) (k : string) : pyres jvalue :=
  match v with
  | JDict kvs => match dget k kvs with Some x => Ok x | None => Raise KeyError end
  | _ => Raise TypeError
  end.

(** [v[0]] *)
Definition getitem_0 (v : jvalue) : pyres jvalue :=
  match v with
  | JList (x :: _) => Ok x
  | JList [] => Raise IndexError
  | JStr (String c _) => Ok (JStr (String c EmptyString))
  | JStr EmptyString => Raise IndexError
  | JDict _ => Raise KeyError
  | _ => Raise TypeError
  end.

Definition _parse_response (response : jvalue) : pyres jvalue :=
  let lookup :=
    let* choices := getitem_key response "choices" in
    let* first := getitem_0 choices in
    let* message := getitem_key first "message" in
    getitem_key message "content" in
  match lookup with
  | Raise _ => Raise (ValueError "Invalid OpenAI response")
  | Ok (JStr content) =>
      match json_loads content with
      | Some v => Ok v
      | None =>
          match regex_brace_search content with
          | None => Raise (ValueError "No JSON object found in response.")
          | Some m => match json_loads m with
                      | Some v => Ok v
                      | None => Raise JSONDecodeError
                      end
          end
      end
  | Ok _ => Raise TypeError   (* [json.loads] of a non-string *)
  end.

Definition note_demo : string := "Demo-Modus aktiv (kein OPENAI_API_KEY).".
Definition note_failed : string := "OpenAI nicht erreichbar. Demo-Daten generiert.".

(** [ListingGenerator.analyze_product_image]; [api_key] is the configured
    key and [server] the remote endpoint. *)
Definition analyze_product_image (api_key : option string) (server : endpoint)
  (image_data : list Byte.byte) (filename : option string) : pyres ListingDraft :=
  let live := match api_key with Some k => str_truthy k | None => false end in
  if negb live then _mock_result filename note_demo
  else
    let attempt :=
      let b64 := base64_image image_data in
      let* response := _call_openai_vision (server b64) in
      let* data := _parse_response response in
      _build_result data "openai" in
    match attempt with
    | Ok d => Ok d
    | Raise _ => _mock_result filename note_failed   (* except Exception *)
    end.

(** ** [OpenAIVisionService._call_openai_vision]
    ([src/services/vision_service.py]) *)

Inductive event :=
| Attempt (n : nat)
| Sleep (seconds : Z).

(** [for attempt in range(3)], from [attempt] on, with [remaining]
    iterations left; [server n] is the outcome of the [n]-th request.
    Falling off the loop returns [None]. *)
Fixpoint vs_loop (remaining attempt : nat) (server : nat -> http_outcome)
  : pyres (option jvalue) * list event :=
  match remaining with
  | O => (Ok None, [])
  | S rem =>
      let on_exception e :=
        if (attempt =? 2)%nat then (Raise e, [Attempt attempt])
        else let '(r, t) := vs_loop rem (S attempt) server in
             (r, Attempt attempt :: Sleep 1 :: t) in
      match server attempt with
      | HttpClientError => on_exception ClientError
      | HttpResponse status _ body =>
          if status =? 200 then
            match body with
            | Some j => (Ok (Some j), [Attempt attempt])
            | None => on_exception JSONDecodeError
            end
          else if status =? 429 then
            let '(r, t) := vs_loop rem (S attempt) server in
            (r, Attempt attempt :: Sleep (2 ^ Z.of_nat attempt) :: t)
          else
            let '(r, t) := vs_loop rem (S attempt) server in
            (r, Attempt attempt :: t)
      end
  end.

Definition vs_call_openai_vision (server : nat -> http_outcome)
  : pyres (option jvalue) * list event :=
  vs_loop 3 0 server.

Definition attempts (t : list event) : nat :=
  length (filter (fun e => match e with Attempt _ => true | _ => false end) t).

(** ** Endpoints and predicates used to state the properties *)

(** A successful chat-completions answer whose message content is
    [content]. *)
Definition openai_response (content : string) : http_outcome :=
  HttpResponse 200 ""
    (Some (JDict [("choices", JList [JDict [("message", JDict [("content", JStr content)])]])])).

(** Whether one POST of [OpenAIVisionService] returns a result. *)
Definition succeeds (o : http_outcome) : bool :=
  match o with
  | HttpResponse status _ (Some _) => status =? 200
  | _ => false
  end.

(** JSON text as the model would send it, written with ['] standing for
    the double quote. *)
Definition json_text (s : string) : string := py_replace_char "'" (ascii_of_nat 34) s.

(** An [estimated_value_eur] that the coercion reads as a single value:
    a number or a string without a hyphen. *)
Definition scalar_range (v : jvalue) : bool :=
  match v with
  | JBool _ | JInt _ | JFloat _ => true
  | JStr s => negb (py_contains_char "-" s)
  | _ => false
  end.

(** ** [ListingGenerator.is_live] and [health_check]
    ([src/simple_mobile_app.py]) *)

(** [bool(self.api_key)] *)
Definition is_live (api_key : option string) : bool :=
  match api_key with Some k => str_truthy k | None => false end.

(** The dictionary returned by [GET /health]. *)
Definition health_check (api_key : option string) : list (string * jvalue) :=
  let mode := if is_live api_key then "openai" else "mock" in
  [("status", JStr "healthy");
   ("service", JStr "✅ Mobile eBay Tool ready");
   ("vision", JStr (if String.eqb mode "openai" then "✅ OpenAI Vision active"
                    else "⚠️ Demo mode"));
   ("mode", JStr mode)].

(** Seconds [OpenAIVisionService._call_openai_vision] sleeps. *)
Definition sleep_total (t : list event) : Z :=
  fold_right (fun e acc => match e with Sleep s => s + acc | Attempt _ => acc end) 0 t.

(** The body of the first successful outcome in [os]. *)
Definition first_success (os : list http_outcome) : option jvalue :=
  match find succeeds os with
  | Some (HttpResponse _ _ (Some j)) => Some j
  | _ => None
  end.

(** Whether one POST of [OpenAIVisionService] raises: a client error, or a
    200 whose body is not JSON. *)
Definition throws (o : http_outcome) : bool :=
  match o with
  | HttpClientError => true
  | HttpResponse status _ None => status =? 200
  | HttpResponse _ _ (Some _) => false
  end.

(** ** Predicates used by the proofs *)

(** [a / d < 2^e], multiplied out. *)
Definition lt_pow2 (a d e : Z) : Prop :=
  if 0 <=? e then a < d * 2 ^ e else a * 2 ^ (- e) < d.

(** An integer that a double holds exactly. *)
Definition repr_int (z : Z) : Prop :=
  exists m e, 0 <= e /\ Z.abs m <= 2 ^ 53 /\ z = m * 2 ^ e.

(** A finite value has at most 53 significant bits. *)
Definition is_double (f : pyfloat) : bool :=
  match f with Fin m _ => Z.abs m <=? 2 ^ 53 | _ => true end.

(** Every float inside a JSON value is a double. *)
Fixpoint wf_json (v : jvalue) : bool :=
  match v with
  | JFloat f => is_double f
  | JList l => forallb wf_json l
  | JDict kvs => forallb (fun kv => wf_json (snd kv)) kvs
  | _ => true
  end.

(** ** Rounding lemmas *)

Lemma pow2_pos (e : Z) : 0 <= e -> 0 < 2 ^ e.
Proof. intros; apply Z.pow_pos_nonneg; lia. Qed.

Lemma flog2_upper (a d : Z) : 0 < a -> 0 < d -> lt_pow2 a d (flog2 a d + 1).
Proof.
  intros Ha Hd. unfold flog2.
  pose proof (Z.log2_spec a Ha) as [Sa1 Sa2].
  pose proof (Z.log2_spec d Hd) as [Sd1 Sd2].
  pose proof (Z.log2_nonneg a). pose proof (Z.log2_nonneg d).
  set (la := Z.log2 a) in *. set (ld := Z.log2 d) in *.
  rewrite Z.pow_succ_r in Sa2, Sd2 by lia.
  assert (Hup : lt_pow2 a d (la - ld + 1)).
  { unfold lt_pow2. destruct (0 <=? la - ld + 1) eqn:E.
    - apply Z.leb_le in E.
      assert (2 ^ (la + 1) = 2 ^ (la - ld + 1) * 2 ^ ld) as P
        by (rewrite <- Z.pow_add_r by lia; f_equal; lia).
      rewrite Z.pow_add_r in P by lia. rewrite Z.pow_1_r in P.
      pose proof (pow2_pos (la - ld + 1) E). nia.
    - apply Z.leb_gt in E.
      assert (2 ^ (la + 1) * 2 ^ (- (la - ld + 1)) = 2 ^ ld) as P
        by (rewrite <- Z.pow_add_r by lia; f_equal; lia).
      rewrite Z.pow_add_r in P by lia. rewrite Z.pow_1_r in P.
      assert (0 < 2 ^ (- (la - ld + 1))) by (apply pow2_pos; lia). nia. }
  destruct (if 0 <=? la - ld then d * 2 ^ (la - ld) <=? a
            else d <=? a * 2 ^ (- (la - ld))) eqn:C; [exact Hup|].
  replace (la - ld - 1 + 1) with (la - ld) by lia.
  unfold lt_pow2. destruct (0 <=? la - ld); [apply Z.leb_gt in C | apply Z.leb_gt in C]; lia.
Qed.

Lemma flog2_lower (a d : Z) :
  0 < d -> d <= a -> 0 <= flog2 a d /\ d * 2 ^ flog2 a d <= a.
Proof.
  intros Hd Hda. unfold flog2.
  assert (Ha : 0 < a) by lia.
  pose proof (Z.log2_spec a Ha) as [Sa1 Sa2].
  pose proof (Z.log2_spec d Hd) as [Sd1 Sd2].
  pose proof (Z.log2_le_mono d a Hda).
  pose proof (Z.log2_nonneg a). pose proof (Z.log2_nonneg d).
  set (la := Z.log2 a) in *. set (ld := Z.log2 d) in *.
  rewrite Z.pow_succ_r in Sd2 by lia.
  replace (0 <=? la - ld) with true by (symmetry; apply Z.leb_le; lia).
  destruct (d * 2 ^ (la - ld) <=? a) eqn:C.
  - apply Z.leb_le in C. split; [lia | exact C].
  - apply Z.leb_gt in C.
    assert (la - ld <> 0) by (intro E0; rewrite E0 in C; simpl in C; lia).
    split; [lia|].
    assert (2 ^ la = 2 * 2 ^ ld * 2 ^ (la - ld - 1)) as P.
    { rewrite <- Z.mul_assoc, <- Z.pow_add_r by lia.
      rewrite <- (Z.pow_1_r 2) at 2. rewrite <- Z.pow_add_r by lia. f_equal; lia. }
    assert (0 < 2 ^ (la - ld - 1)) by (apply pow2_pos; lia). nia.
Qed.

Lemma lt_pow2_mono (a d e e' : Z) :
  0 <= a -> 0 < d -> e <= e' -> lt_pow2 a d e -> lt_pow2 a d e'.
Proof.
  intros Ha Hd Hee H. unfold lt_pow2 in *.
  destruct (0 <=? e) eqn:E1; destruct (0 <=? e') eqn:E2;
    try apply Z.leb_le in E1; try apply Z.leb_le in E2;
    try apply Z.leb_gt in E1; try apply Z.leb_gt in E2; try lia.
  - assert (2 ^ e' = 2 ^ e * 2 ^ (e' - e)) as P
      by (rewrite <- Z.pow_add_r by lia; f_equal; lia).
    assert (0 < 2 ^ (e' - e)) by (apply pow2_pos; lia). nia.
  - assert (1 <= 2 ^ (- e)) by (pose proof (pow2_pos (- e)); lia).
    assert (0 < 2 ^ e') by (apply pow2_pos; lia). nia.
  - assert (2 ^ (- e) = 2 ^ (- e') * 2 ^ (e' - e)) as P
      by (rewrite <- Z.pow_add_r by lia; f_equal; lia).
    assert (0 < 2 ^ (e' - e)) by (apply pow2_pos; lia).
    assert (0 < 2 ^ (- e')) by (apply pow2_pos; lia). nia.
Qed.

Lemma div_round_even_bounds (N D : Z) :
  0 < D -> N / D <= div_round_even N D <= N / D + 1.
Proof.
  intros HD. unfold div_round_even.
  destruct ((D <? 2 * (N mod D)) || ((2 * (N mod D) =? D) && Z.odd (N / D))); lia.
Qed.

Lemma div_round_even_ge (N D j : Z) : 0 < D -> j * D <= N -> j <= div_round_even N D.
Proof.
  intros HD H. pose proof (div_round_even_bounds N D HD).
  assert (j <= N / D) by (apply Z.div_le_lower_bound; lia). lia.
Qed.

Lemma div_round_even_le (N D j : Z) : 0 < D -> N <= j * D -> div_round_even N D <= j.
Proof.
  intros HD H. unfold div_round_even.
  pose proof (Z.mod_pos_bound N D HD).
  pose proof (Z.div_mod N D ltac:(lia)).
  destruct (Z.eq_dec (N mod D) 0) as [R0|R0].
  - rewrite R0. replace (D <? 2 * 0) with false by (symmetry; apply Z.ltb_ge; lia).
    replace (2 * 0 =? D) with false by (symmetry; apply Z.eqb_neq; lia).
    simpl. apply Z.div_le_upper_bound; lia.
  - assert (N / D < j) by nia.
    destruct ((D <? 2 * (N mod D)) || ((2 * (N mod D) =? D) && Z.odd (N / D))); lia.
Qed.

Lemma div_round_even_lt (N D c : Z) :
  0 < D -> 0 <= N -> N < c * D -> 0 <= div_round_even N D <= c.
Proof.
  intros HD HN H. pose proof (div_round_even_bounds N D HD).
  assert (0 <= N / D) by (apply Z.div_pos; lia).
  assert (N / D < c) by (apply Z.div_lt_upper_bound; lia). lia.
Qed.

(** Every finite result of [round_rat] has at most 53 significant bits. *)
Lemma round_rat_double (n d : Z) : 0 < d -> is_double (round_rat n d) = true.
Proof.
  intros Hd. unfold round_rat.
  destruct (n =? 0) eqn:N0; [reflexivity|]. apply Z.eqb_neq in N0.
  set (a := Z.abs n). assert (Ha : 0 < a) by (unfold a; lia).
  set (k := Z.max (flog2 a d - 52) (-1074)).
  assert (Hk : lt_pow2 a d (53 + k)).
  { apply (lt_pow2_mono a d (flog2 a d + 1)); try lia.
    apply flog2_upper; lia. }
  assert (Hq : 0 <= (if 0 <=? k then div_round_even a (d * 2 ^ k)
                     else div_round_even (a * 2 ^ (- k)) d) <= 2 ^ 53).
  { unfold lt_pow2 in Hk. destruct (0 <=? k) eqn:K.
    - apply Z.leb_le in K. replace (0 <=? 53 + k) with true in Hk
        by (symmetry; apply Z.leb_le; lia).
      assert (0 < 2 ^ k) by (apply pow2_pos; lia).
      apply div_round_even_lt; try lia.
      rewrite Z.pow_add_r in Hk by lia. nia.
    - apply Z.leb_gt in K.
      assert (0 < 2 ^ (- k)) by (apply pow2_pos; lia).
      apply div_round_even_lt; try nia.
      destruct (0 <=? 53 + k) eqn:K2.
      + apply Z.leb_le in K2.
        assert (2 ^ 53 = 2 ^ (53 + k) * 2 ^ (- k)) as P
          by (rewrite <- Z.pow_add_r by lia; f_equal; lia). nia.
      + apply Z.leb_gt in K2.
        assert (2 ^ (- k) = 2 ^ (- (53 + k)) * 2 ^ 53) as P
          by (rewrite <- Z.pow_add_r by lia; f_equal; lia).
        assert (0 < 2 ^ (- (53 + k))) by (apply pow2_pos; lia). nia. }
  set (q := if 0 <=? k then div_round_even a (d * 2 ^ k)
            else div_round_even (a * 2 ^ (- k)) d) in *.
  destruct ((0 <=? k) && (2 ^ 1024 <=? q * 2 ^ k)); [reflexivity|].
  simpl. apply Z.leb_le. destruct (n <? 0); lia.
Qed.

Lemma repr_multiple (z E : Z) :
  repr_int z -> 2 ^ E <= z -> 52 <= E -> exists j, z = j * 2 ^ (E - 52).
Proof.
  intros (m & e & He & Hm & ->) Hz HE.
  destruct (Z_le_gt_dec (E - 52) e) as [L|L].
  - exists (m * 2 ^ (e - (E - 52))).
    rewrite <- Z.mul_assoc, <- Z.pow_add_r by lia. f_equal. f_equal. lia.
  - exists (2 ^ 52).
    assert (2 ^ E = 2 ^ 53 * 2 ^ e * 2 ^ (E - 53 - e)) as P
      by (rewrite <- !Z.pow_add_r by lia; f_equal; lia).
    assert (0 < 2 ^ e) by (apply pow2_pos; lia).
    assert (1 <= 2 ^ (E - 53 - e)) by (pose proof (pow2_pos (E - 53 - e)); lia).
    assert (m * 2 ^ e <= 2 ^ 53 * 2 ^ e) by nia.
    assert (m * 2 ^ e = 2 ^ E) by nia.
    rewrite H2, <- Z.pow_add_r by lia. f_equal; lia.
Qed.

(** Rounding [n / d] to a double and truncating stays within [a, b] when
    [a <= n / d <= b] and [a], [b] are positive integers held by doubles. *)
Lemma round_rat_between (n d a b q k m : Z) :
  0 < d -> 0 < a -> a * d <= n -> n <= b * d -> repr_int a -> repr_int b ->
  round_rat n d = Fin q k -> py_int_of_float (Fin q k) = Ok m -> a <= m <= b.
Proof.
  intros Hd Ha Han Hnb Ra Rb H Hm.
  assert (Hn : d <= n) by nia.
  destruct (flog2_lower n d Hd Hn) as [HE0 HEl].
  pose proof (flog2_upper n d ltac:(lia) Hd) as HEu.
  unfold lt_pow2 in HEu. replace (0 <=? flog2 n d + 1) with true in HEu
    by (symmetry; apply Z.leb_le; lia).
  unfold round_rat in H.
  replace (n =? 0) with false in H by (symmetry; apply Z.eqb_neq; lia).
  replace (Z.abs n) with n in H by lia.
  set (E := flog2 n d) in *.
  replace (Z.max (E - 52) (-1074)) with (E - 52) in H by lia.
  replace (n <? 0) with false in H by (symmetry; apply Z.ltb_ge; lia).
  assert (2 ^ E <= b) by (assert (0 < 2 ^ E) by (apply pow2_pos; lia); nia).
  destruct (0 <=? E - 52) eqn:K.
  - apply Z.leb_le in K.
    destruct (2 ^ 1024 <=? div_round_even n (d * 2 ^ (E - 52)) * 2 ^ (E - 52));
      simpl in H; [discriminate|].
    injection H as Hq Hk. subst k.
    simpl in Hm. replace (0 <=? E - 52) with true in Hm by (symmetry; apply Z.leb_le; lia).
    injection Hm as <-.
    assert (P : 2 ^ E = 2 ^ 52 * 2 ^ (E - 52))
      by (rewrite <- Z.pow_add_r by lia; f_equal; lia).
    assert (0 < 2 ^ (E - 52)) by (apply pow2_pos; lia).
    split.
    + destruct (Z_le_gt_dec (2 ^ E) a) as [A|A].
      * destruct (repr_multiple a E Ra A ltac:(lia)) as [j Hj].
        assert (j <= q).
        { rewrite <- Hq. apply div_round_even_ge; [nia|]. nia. }
        nia.
      * assert (2 ^ 52 <= q).
        { rewrite <- Hq. apply div_round_even_ge; [nia|]. nia. }
        nia.
    + destruct (repr_multiple b E Rb ltac:(lia) ltac:(lia)) as [j Hj].
      assert (q <= j).
      { rewrite <- Hq. apply div_round_even_le; [nia|]. nia. }
      nia.
  - apply Z.leb_gt in K. simpl in H. injection H as Hq Hk. subst k.
    set (s := 2 ^ (- (E - 52))) in *.
    assert (0 < s) by (apply pow2_pos; lia).
    assert (a * s <= q) by (rewrite <- Hq; apply div_round_even_ge; nia).
    assert (q <= b * s) by (rewrite <- Hq; apply div_round_even_le; nia).
    simpl in Hm. replace (0 <=? E - 52) with false in Hm by (symmetry; apply Z.leb_gt; lia).
    injection Hm as <-. fold s.
    rewrite Z.quot_div_nonneg by nia.
    split; [apply Z.div_le_lower_bound | apply Z.div_le_upper_bound]; nia.
Qed.

(** ** Coercion lemmas *)

Lemma repr_small (z : Z) : Z.abs z <= 2 ^ 53 -> repr_int z.
Proof. intros H. exists z, 0. rewrite Z.pow_0_r. split; [lia|split; [exact H|lia]]. Qed.

Lemma trunc_repr (f : pyfloat) (z : Z) :
  is_double f = true -> py_int_of_float f = Ok z -> repr_int z.
Proof.
  intros Hf Hz. destruct f as [m k| |]; simpl in *; try discriminate.
  apply Z.leb_le in Hf. injection Hz as <-.
  destruct (0 <=? k) eqn:K.
  - apply Z.leb_le in K. exists m, k. lia.
  - apply Z.leb_gt in K. apply repr_small.
    assert (0 < 2 ^ (- k)) by (apply pow2_pos; lia).
    rewrite <- Z.quot_abs by lia. rewrite (Z.abs_eq (2 ^ (- k))) by lia.
    rewrite Z.quot_div_nonneg by lia.
    assert (Z.abs m / 2 ^ (- k) <= Z.abs m) by (apply Z.div_le_upper_bound; nia).
    lia.
Qed.

Lemma decimal_to_float_double (mant e : Z) : is_double (decimal_to_float mant e) = true.
Proof.
  unfold decimal_to_float. destruct (0 <=? e) eqn:E.
  - apply round_rat_double; lia.
  - apply round_rat_double. apply Z.pow_pos_nonneg; [lia|]. apply Z.leb_gt in E. lia.
Qed.

Lemma py_float_of_string_double (s : string) (f : pyfloat) :
  py_float_of_string s = Some f -> is_double f = true.
Proof.
  unfold py_float_of_string. intros H.
  repeat match type of H with
  | context [match ?x with _ => _ end] => destruct x
  | context [if ?x then _ else _] => destruct x
  end; try discriminate; injection H as <-; try reflexivity;
  apply decimal_to_float_double.
Qed.

Lemma py_float_double (v : jvalue) (f : pyfloat) :
  wf_json v = true -> py_float v = Ok f -> is_double f = true.
Proof.
  intros Hv H. destruct v; simpl in H; try discriminate.
  - injection H as <-. destruct b; apply round_rat_double; lia.
  - unfold py_float_of_int in H. destruct (float_of_Z z) eqn:F; try discriminate;
      injection H as <-; try reflexivity.
    rewrite <- F. apply round_rat_double; lia.
  - injection H as <-. exact Hv.
  - destruct (py_float_of_string s) eqn:S; try discriminate. injection H as <-.
    eapply py_float_of_string_double; eauto.
Qed.

Lemma to_int_repr (v : jvalue) (default z : Z) :
  wf_json v = true -> repr_int default -> to_int v default = Ok z -> repr_int z.
Proof.
  intros Hv Hd H. unfold to_int in H.
  destruct (py_float v) as [f|e] eqn:F; simpl in H.
  - destruct (py_int_of_float f) as [z'|e] eqn:I.
    + injection H as <-. eapply trunc_repr; [|exact I]. eapply py_float_double; eauto.
    + destruct e; try discriminate; injection H as <-; exact Hd.
  - destruct e; try discriminate; injection H as <-; exact Hd.
Qed.

Lemma dget_wf (kvs : list (string * jvalue)) (k : string) (v : jvalue) :
  forallb (fun kv => wf_json (snd kv)) kvs = true -> dget k kvs = Some v -> wf_json v = true.
Proof.
  unfold dget. intros Hall.
  assert (Hacc : forall acc, (forall x, acc = Some x -> wf_json x = true) ->
            forall x, fold_left (fun acc kv => if String.eqb k (fst kv) then Some (snd kv) else acc)
                        kvs acc = Some x -> wf_json x = true).
  { induction kvs as [|kv r IH]; simpl in *; intros acc Hacc x Hx; [eauto|].
    apply andb_true_iff in Hall as [H1 H2].
    refine (IH H2 _ _ x Hx). intros y Hy.
    destruct (String.eqb k (fst kv)); [injection Hy as <-; exact H1 | eauto]. }
  apply Hacc. discriminate.
Qed.

Lemma get_wf (kvs : list (string * jvalue)) (k : string) :
  wf_json (JDict kvs) = true -> wf_json (get kvs k) = true.
Proof.
  intros H. unfold get. destruct (dget k kvs) eqn:D; [|reflexivity].
  eapply dget_wf; eauto.
Qed.

Lemma repr_zero : repr_int 0.
Proof. apply repr_small. lia. Qed.

Lemma coerce_range_repr (pr : jvalue) (mn mx : Z) :
  wf_json pr = true -> coerce_range pr = Ok (mn, mx) -> repr_int mn /\ repr_int mx.
Proof.
  intros Hw H.
  assert (Hs : forall v, wf_json v = true -> bind (to_int v 0) (fun t => Ok (t, t)) = Ok (mn, mx) ->
                 repr_int mn /\ repr_int mx).
  { intros v Hv Hb. destruct (to_int v 0) as [t|] eqn:T; simpl in Hb; try discriminate.
    injection Hb as E1 E2. subst mn mx.
    assert (repr_int t) by (eapply to_int_repr; [exact Hv|apply repr_zero|exact T]). tauto. }
  destruct pr; simpl in H; try (apply (Hs _ Hw H)).
  - destruct (py_contains_char "-" s).
    + destruct (split_first "-" (list_ascii_of_string s)) as [p0 p1].
      destruct (to_int (JStr (string_of_list_ascii p0)) 0) as [t0|] eqn:T0; simpl in H;
        try discriminate.
      destruct (to_int (JStr (string_of_list_ascii p1)) t0) as [t1|] eqn:T1; simpl in H;
        try discriminate.
      injection H as E1 E2. subst mn mx.
      assert (repr_int t0) by (apply (to_int_repr (JStr (string_of_list_ascii p0)) _ _ eq_refl repr_zero T0)).
      split; [assumption|]. exact (to_int_repr (JStr (string_of_list_ascii p1)) _ _ eq_refl H T1).
    + apply (Hs _ Hw H).
  - destruct (to_int (get kvs "min") 0) as [t0|] eqn:T0; simpl in H; try discriminate.
    destruct (to_int (get kvs "max") t0) as [t1|] eqn:T1; simpl in H; try discriminate.
    injection H as E1 E2. subst mn mx.
    assert (repr_int t0) by (exact (to_int_repr _ _ _ (get_wf kvs "min" Hw) repr_zero T0)).
    split; [assumption|]. exact (to_int_repr _ _ _ (get_wf kvs "max" Hw) H T1).
Qed.

Lemma repr_20 : repr_int 20.
Proof. apply repr_small. lia. Qed.

Lemma estimated_value_wf (kvs : list (string * jvalue)) :
  wf_json (JDict kvs) = true ->
  wf_json (match dget "estimated_value_eur" kvs with Some v => v | None => JDict [] end) = true.
Proof.
  intros H. destruct (dget "estimated_value_eur" kvs) eqn:D; [|reflexivity].
  eapply dget_wf; eauto.
Qed.

(** The price fields of a live draft: the range is positive and ordered;
    the recommended price is in the range, unless it is the model's own
    positive [price_recommendation_eur]. *)
Lemma build_result_prices (data : jvalue) (src : string) (d : ListingDraft) :
  wf_json data = true -> _build_result data src = Ok d ->
  0 < fst (estimated_value_range d) <= snd (estimated_value_range d) /\
  (fst (estimated_value_range d) <= recommended_price d <= snd (estimated_value_range d)
   \/ exists kvs p, data = JDict kvs /\
        to_int (get kvs "price_recommendation_eur") 0 = Ok p /\ 0 < p /\
        recommended_price d = p * 100).
Proof.
  intros Hw H. destruct data as [| | | | | |kvs]; try discriminate H.
  unfold _build_result in H.
  pose proof (estimated_value_wf kvs Hw) as Hpr.
  set (pr := match dget "estimated_value_eur" kvs with Some v => v | None => JDict [] end) in *.
  destruct (coerce_range pr) as [[mn mx]|] eqn:CR; cbn [bind] in H; [|discriminate].
  destruct (coerce_range_repr pr mn mx Hpr CR) as [Rmn Rmx].
  set (min_val := if mn <=? 0 then 20 else mn) in H.
  set (max_val := if mx <? min_val then min_val else mx) in H.
  assert (Hmin : 0 < min_val) by (unfold min_val; destruct (mn <=? 0) eqn:E; lia).
  assert (Hmax : min_val <= max_val) by (unfold max_val; destruct (mx <? min_val) eqn:E; lia).
  assert (Rmin : repr_int min_val) by (unfold min_val; destruct (mn <=? 0); auto using repr_20).
  assert (Rmax : repr_int max_val) by (unfold max_val; destruct (mx <? min_val); auto).
  destruct (to_int (get kvs "price_recommendation_eur") 0) as [r0|] eqn:TR;
    cbn [bind] in H; [|discriminate].
  destruct (r0 <=? 0) eqn:R0.
  - destruct (py_truediv_int (min_val + max_val) 2) as [f|] eqn:DV; cbn [bind] in H;
      [|discriminate].
    destruct (py_int_of_float f) as [m|] eqn:IF; cbn [bind] in H; [|discriminate].
    destruct (py_float (py_or (get kvs "confidence_score") default_confidence));
      cbn [bind] in H; [|discriminate].
    injection H as <-. cbn [estimated_value_range recommended_price fst snd].
    split; [lia|]. left.
    unfold py_truediv_int in DV. cbn - [round_rat] in DV.
    destruct (round_rat (min_val + max_val) 2) as [q k| |] eqn:RR; try discriminate;
      injection DV as <-; [|discriminate IF].
    assert (min_val <= m <= max_val)
      by (apply (round_rat_between (min_val + max_val) 2 min_val max_val q k m); auto; lia).
    lia.
  - destruct (py_float (py_or (get kvs "confidence_score") default_confidence));
      cbn [bind] in H; [|discriminate].
    injection H as <-. cbn [estimated_value_range recommended_price fst snd].
    split; [lia|]. right. exists kvs, r0. apply Z.leb_gt in R0. auto.
Qed.

(** ** [json.loads] returns doubles *)

Ltac destruct_matches_in H :=
  repeat match type of H with
  | context [match ?x with _ => _ end] => destruct x
  | context [if ?x then _ else _] => destruct x
  end.

Lemma parse_jnumber_wf (l r : list ascii) (v : jvalue) :
  parse_jnumber l = Some (v, r) -> wf_json v = true.
Proof.
  unfold parse_jnumber. intros H.
  destruct_matches_in H; try discriminate; injection H as <- _;
    try reflexivity; apply decimal_to_float_double.
Qed.

Lemma match_constant_wf (cs : list (string * jvalue)) (l r : list ascii) (v : jvalue) :
  forallb (fun kv => wf_json (snd kv)) cs = true ->
  match_constant cs l = Some (v, r) -> wf_json v = true.
Proof.
  induction cs as [|[w x] rest IH]; simpl; intros Hall H; [discriminate|].
  apply andb_true_iff in Hall as [H1 H2].
  destruct (strip_prefix (list_ascii_of_string w) l).
  - injection H as <- _. exact H1.
  - eauto.
Qed.

Lemma forallb_rev_cons {A} (p : A -> bool) (x : A) (acc : list A) :
  p x = true -> forallb p acc = true -> forallb p (rev (x :: acc)) = true.
Proof.
  intros Hx Hacc. apply forallb_forall. intros y Hy. apply in_rev in Hy.
  destruct Hy as [<-|Hy]; [exact Hx|]. rewrite forallb_forall in Hacc. auto.
Qed.

Section ParseHelpers.
  Variable pv : list ascii -> option (jvalue * list ascii).
  Hypothesis pv_wf : forall l v r, pv l = Some (v, r) -> wf_json v = true.

Lemma parse_elems_wf (fuel : nat) :
    forall l acc v r, forallb wf_json acc = true ->
    parse_elems pv fuel l acc = Some (v, r) -> wf_json v = true.
  Proof.
    induction fuel as [|f IH]; intros l acc v r Hacc H; cbn [parse_elems] in H;
      [discriminate|].
    destruct (pv (skip_jws l)) as [[x r0]|] eqn:P; [|discriminate].
    pose proof (pv_wf _ _ _ P) as Hx.
    destruct (skip_jws r0) as [|c r']; [discriminate|].
    destruct (Ascii.eqb c ",").
    - apply (IH r' (x :: acc) v r); [simpl; rewrite Hx; exact Hacc | exact H].
    - destruct (Ascii.eqb c "]"); [|discriminate].
      injection H as <- _. simpl. apply forallb_rev_cons; assumption.
  Qed.

Lemma parse_members_wf (fuel : nat) :
    forall l acc v r, forallb (fun kv => wf_json (snd kv)) acc = true ->
    parse_members pv fuel l acc = Some (v, r) -> wf_json v = true.
  Proof.
    induction fuel as [|f IH]; intros l acc v r Hacc H; cbn [parse_members] in H;
      [discriminate|].
    destruct (skip_jws l) as [|q r1]; [discriminate|].
    destruct (negb (Ascii.eqb q dquote)); [discriminate|].
    destruct (parse_jstring r1 []) as [[k r2]|]; [|discriminate].
    destruct (skip_jws r2) as [|colon r3]; [discriminate|].
    destruct (negb (Ascii.eqb colon ":")); [discriminate|].
    destruct (pv (skip_jws r3)) as [[x r4]|] eqn:P; [|discriminate].
    pose proof (pv_wf _ _ _ P) as Hx.
    destruct (skip_jws r4) as [|c r5]; [discriminate|].
    destruct (Ascii.eqb c ",").
    - apply (IH r5 ((k, x) :: acc) v r); [simpl; rewrite Hx; exact Hacc | exact H].
    - destruct (Ascii.eqb c "}"); [|discriminate].
      injection H as <- _. simpl.
      apply (forallb_rev_cons (fun kv => wf_json (snd kv)) (k, x)); assumption.
  Qed.
End ParseHelpers.

Lemma parse_jvalue_wf (fuel : nat) :
  forall l v r, parse_jvalue fuel l = Some (v, r) -> wf_json v = true.
Proof.
  induction fuel as [|f IH]; intros l v r H; cbn [parse_jvalue] in H; [discriminate|].
  destruct l as [|c rest]; [discriminate|].
  destruct (Ascii.eqb c dquote).
  { destruct (parse_jstring rest []) as [[s r']|]; [|discriminate].
    injection H as <- _. reflexivity. }
  destruct (Ascii.eqb c "{").
  { destruct (skip_jws rest) as [|c' r']; [discriminate|].
    destruct (Ascii.eqb c' "}"); [injection H as <- _; reflexivity|].
    eapply (parse_members_wf (parse_jvalue f) IH); [|exact H]. reflexivity. }
  destruct (Ascii.eqb c "[").
  { destruct (skip_jws rest) as [|c' r']; [discriminate|].
    destruct (Ascii.eqb c' "]"); [injection H as <- _; reflexivity|].
    eapply (parse_elems_wf (parse_jvalue f) IH); [|exact H]. reflexivity. }
  destruct (match_constant json_constants (c :: rest)) as [x|] eqn:M.
  - injection H as ->. eapply match_constant_wf; [|exact M]. reflexivity.
  - eapply parse_jnumber_wf; exact H.
Qed.

Lemma json_loads_wf (s : string) (v : jvalue) : json_loads s = Some v -> wf_json v = true.
Proof.
  unfold json_loads. intros H.
  destruct (parse_jvalue _ _) as [[x r]|] eqn:P; [|discriminate].
  destruct (skip_jws r); [|discriminate]. injection H as <-.
  eapply parse_jvalue_wf; exact P.
Qed.

Lemma parse_response_wf (response v : jvalue) :
  _parse_response response = Ok v -> wf_json v = true.
Proof.
  unfold _parse_response. intros H.
  destruct (let* choices := getitem_key response "choices" in _) as [c|e]; [|discriminate].
  destruct c; try discriminate.
  destruct (json_loads s) eqn:J.
  - injection H as <-. eapply json_loads_wf; exact J.
  - destruct (regex_brace_search s); [|discriminate].
    destruct (json_loads s0) eqn:J2; [|discriminate].
    injection H as <-. eapply json_loads_wf; exact J2.
Qed.

(** ** Shape of the drafts *)

Lemma py_prefix_length (n : nat) (s : string) : (String.length (py_prefix n s) <= n)%nat.
Proof.
  unfold py_prefix. revert s. induction n as [|n IH]; intros s; destruct s; simpl; try lia.
  specialize (IH s). lia.
Qed.

Lemma mock_half : py_truediv_int (20 + 35) 2 = Ok (Fin 7740561859543040 (-48)).
Proof. vm_compute. reflexivity. Qed.

Lemma mock_price :
  py_int_of_float (py_mul_float (Fin 7740561859543040 (-48)) (float_of_Z 100)) = Ok 2750.
Proof. vm_compute. reflexivity. Qed.

Lemma mock_result_spec (filename : option string) (note : string) :
  exists d, _mock_result filename note = Ok d /\
    estimated_value_range d = (2000, 3500) /\ recommended_price d = 2750 /\
    source d = "mock" /\ confidence_score d = mock_confidence /\
    condition_details d = note /\ name (product d) = mock_product_name filename /\
    listing_title d =
      py_prefix 80 (py_strip (mock_product_name filename ++ " - " ++ "Gebraucht")).
Proof.
  unfold _mock_result. cbv zeta. rewrite mock_half. cbn [bind]. rewrite mock_price.
  cbn [bind]. eexists. split; [reflexivity|]. cbn. repeat split; reflexivity.
Qed.

Lemma build_result_shape (data : jvalue) (src : string) (d : ListingDraft) :
  _build_result data src = Ok d ->
  exists kvs mn mx conf,
    data = JDict kvs /\
    coerce_range (match dget "estimated_value_eur" kvs with
                  | Some v => v | None => JDict [] end) = Ok (mn, mx) /\
    py_float (py_or (get kvs "confidence_score") default_confidence) = Ok conf /\
    estimated_value_range d =
      ((if mn <=? 0 then 20 else mn) * 100,
       (if mx <? (if mn <=? 0 then 20 else mn) then (if mn <=? 0 then 20 else mn) else mx)
         * 100) /\
    confidence_score d = conf /\
    listing_title d =
      py_prefix 80 (py_strip (py_str (py_or (get kvs "listing_title")
        (JStr (py_str (py_or (get kvs "product_name") (JStr "Unbekanntes Produkt"))))))) /\
    source d = src.
Proof.
  intros H. destruct data as [| | | | | |kvs]; try discriminate H.
  unfold _build_result in H.
  destruct (coerce_range _) as [[mn mx]|] eqn:CR; cbn [bind] in H; [|discriminate].
  destruct (to_int (get kvs "price_recommendation_eur") 0) as [r0|] eqn:TR;
    cbn [bind] in H; [|discriminate].
  destruct (r0 <=? 0);
    [destruct (py_truediv_int _ 2) as [f|]; cbn [bind] in H; [|discriminate];
     destruct (py_int_of_float f) as [m|]; cbn [bind] in H; [|discriminate]|];
    (destruct (py_float (py_or (get kvs "confidence_score") default_confidence)) as [conf|]
       eqn:CF; cbn [bind] in H; [|discriminate]);
    injection H as <-; exists kvs, mn, mx, conf; repeat split; assumption.
Qed.

(** ** Drafts of the whole pipeline *)

Lemma mock_draft_ok (filename : option string) (note : string) :
  exists d, _mock_result filename note = Ok d /\
    0 < fst (estimated_value_range d) <= snd (estimated_value_range d) /\
    (String.length (listing_title d) <= 80)%nat /\
    fst (estimated_value_range d) <= recommended_price d <= snd (estimated_value_range d).
Proof.
  destruct (mock_result_spec filename note) as (d & E & R & P & _ & _ & _ & _ & T).
  exists d; rewrite R, P, T; cbn [fst snd].
  split; [exact E|]; repeat split; try lia; apply py_prefix_length.
Qed.

Lemma build_draft_ok (data : jvalue) (d : ListingDraft) :
  wf_json data = true -> _build_result data "openai" = Ok d ->
  0 < fst (estimated_value_range d) <= snd (estimated_value_range d) /\
  (String.length (listing_title d) <= 80)%nat /\
  (fst (estimated_value_range d) <= recommended_price d <= snd (estimated_value_range d)
   \/ (source d = "openai" /\ 0 < recommended_price d)).
Proof.
  intros Hw B.
  destruct (build_result_prices data "openai" d Hw B) as [Hr [Hin | (kvs & p & _ & _ & Hp & Hrec)]];
  destruct (build_result_shape data "openai" d B)
    as (kvs' & mn & mx & conf & _ & _ & _ & _ & _ & T & Src);
  rewrite T; (split; [exact Hr | split; [apply py_prefix_length |]]).
  - left; exact Hin.
  - right; split; [exact Src | lia].
Qed.

Lemma analyze_draft_ok (api_key : option string) (server : endpoint)
  (image_data : list Byte.byte) (filename : option string) :
  exists d, analyze_product_image api_key server image_data filename = Ok d /\
    0 < fst (estimated_value_range d) <= snd (estimated_value_range d) /\
    (String.length (listing_title d) <= 80)%nat /\
    (fst (estimated_value_range d) <= recommended_price d <= snd (estimated_value_range d)
     \/ (source d = "openai" /\ 0 < recommended_price d)).
Proof.
  unfold analyze_product_image.
  destruct (match api_key with Some k => str_truthy k | None => false end); cbn [negb].
  2:{ destruct (mock_draft_ok filename note_demo) as (d & E & H1 & H2 & H3).
      exists d; auto. }
  destruct (_call_openai_vision (server (base64_image image_data))) as [resp|e];
    cbn [bind].
  2:{ destruct (mock_draft_ok filename note_failed) as (d & E & H1 & H2 & H3).
      exists d; auto. }
  destruct (_parse_response resp) as [data|e] eqn:P; cbn [bind].
  2:{ destruct (mock_draft_ok filename note_failed) as (d & E & H1 & H2 & H3).
      exists d; auto. }
  destruct (_build_result data "openai") as [d|e] eqn:B.
  - exists d; split; [reflexivity|].
    exact (build_draft_ok data d (parse_response_wf resp data P) B).
  - destruct (mock_draft_ok filename note_failed) as (d & E & H1 & H2 & H3).
    exists d; auto.
Qed.

Lemma analyze_live (key : string) (server : endpoint) (image_data : list Byte.byte)
  (filename : option string) :
  str_truthy key = true ->
  analyze_product_image (Some key) server image_data filename =
    match (let* response := _call_openai_vision (server (base64_image image_data)) in
           let* data := _parse_response response in
           _build_result data "openai") with
    | Ok d => Ok d
    | Raise _ => _mock_result filename note_failed
    end.
Proof. intros H; unfold analyze_product_image; rewrite H; reflexivity. Qed.

Lemma reply_unparsable :
  (let* response := _call_openai_vision (openai_response "I cannot analyze this image.") in
   let* data := _parse_response response in
   _build_result data "openai") = Raise (ValueError "No JSON object found in response.").
Proof. vm_compute; reflexivity. Qed.

Lemma reply_server_error :
  (let* response := _call_openai_vision (HttpResponse 500 "Internal Server Error" None) in
   let* data := _parse_response response in
   _build_result data "openai")
  = Raise (ValueError "OpenAI API error 500: Internal Server Error").
Proof. vm_compute; reflexivity. Qed.

(** ** The product name of the fallback *)

Lemma existsb_rev {A} (p : A -> bool) (l : list A) : existsb p (rev l) = existsb p l.
Proof.
  apply Bool.eq_true_iff_eq; rewrite !existsb_exists; split;
    intros (x & Hx & Hp); exists x; split; auto; [apply in_rev | apply in_rev; rewrite rev_involutive]; auto.
Qed.

Lemma existsb_drop_space (p : ascii -> bool) (l : list ascii) :
  existsb p (drop_space l) = true -> existsb p l = true.
Proof.
  induction l as [|c r IH]; cbn [drop_space]; [easy|].
  destruct (py_isspace c); [intros H; cbn; rewrite (IH H); apply orb_true_r | auto].
Qed.

Lemma strip_no_char (c : ascii) (s : string) :
  py_contains_char c s = false -> py_contains_char c (py_strip s) = false.
Proof.
  unfold py_contains_char, py_strip; intros H.
  rewrite list_ascii_of_string_of_list_ascii, existsb_rev.
  destruct (existsb _ (drop_space _)) eqn:E; [|reflexivity].
  apply existsb_drop_space in E; rewrite existsb_rev in E.
  apply existsb_drop_space in E; rewrite E in H; discriminate.
Qed.

Lemma replace_removes (a b : ascii) (s : string) :
  Ascii.eqb a b = false -> py_contains_char a (py_replace_char a b s) = false.
Proof.
  unfold py_contains_char, py_replace_char; intros Hab.
  rewrite list_ascii_of_string_of_list_ascii.
  induction (list_ascii_of_string s) as [|c r IH]; [reflexivity|].
  cbn [map existsb]; rewrite IH, orb_false_r.
  destruct (Ascii.eqb a c) eqn:E; [exact Hab | exact E].
Qed.

Lemma mock_name_no_underscore (filename : option string) :
  py_contains_char "_" (mock_product_name filename) = false.
Proof.
  unfold mock_product_name.
  destruct filename as [f|]; [|reflexivity].
  destruct (str_truthy f); [|reflexivity].
  destruct (str_truthy _) eqn:E; [|reflexivity].
  apply strip_no_char, replace_removes; reflexivity.
Qed.

Lemma prefix_length_min (n : nat) (s : string) :
  String.length (py_prefix n s) = Nat.min n (String.length s).
Proof.
  unfold py_prefix; revert n; induction s as [|c s IH]; intros [|n]; try reflexivity.
  cbn; rewrite IH; reflexivity.
Qed.

(** ** Coercion of a single value *)

Lemma coerce_range_scalar (v : jvalue) (mn mx : Z) :
  scalar_range v = true -> coerce_range v = Ok (mn, mx) ->
  to_int v 0 = Ok mn /\ mx = mn.
Proof.
  intros Hs H; destruct v as [| b | z | f | s | l | kvs]; try discriminate Hs;
    unfold coerce_range in H.
  all: try (destruct (to_int _ 0) as [t|]; cbn [bind] in H; [|discriminate];
            injection H as <- <-; split; reflexivity).
  cbn [scalar_range] in Hs; apply negb_true_iff in Hs; rewrite Hs in H.
  destruct (to_int (JStr s) 0) as [t|]; cbn [bind] in H; [|discriminate].
  injection H as <- <-; split; reflexivity.
Qed.

(** ** Claims *)

(** Claim C1: for every configured key, endpoint behaviour, image and file
    name, [analyze_product_image] returns a draft and never raises; the
    draft has [0 < low <= high] and a title of at most 80 characters. Its
    recommended price lies in [[low, high]], except for a live draft
    (source ["openai"]) built from a reply whose JSON object gives a
    positive [price_recommendation_eur] [p]: its recommended price is then
    [p * 100] as is, which may lie outside the range. *)
Theorem analyze_product_image_total (api_key : option string) (server : endpoint)
  (image_data : list Byte.byte) (filename : option string) :
  exists d, analyze_product_image api_key server image_data filename = Ok d /\
    0 < fst (estimated_value_range d) <= snd (estimated_value_range d) /\
    (String.length (listing_title d) <= 80)%nat /\
    (fst (estimated_value_range d) <= recommended_price d <= snd (estimated_value_range d)
     \/ (source d = "openai" /\
         exists response kvs p,
           _call_openai_vision (server (base64_image image_data)) = Ok response /\
           _parse_response response = Ok (JDict kvs) /\
           to_int (get kvs "price_recommendation_eur") 0 = Ok p /\ 0 < p /\
           recommended_price d = p * 100)).
Proof.
  unfold analyze_product_image.
  destruct (match api_key with Some k => str_truthy k | None => false end); cbn [negb].
  2:{ destruct (mock_draft_ok filename note_demo) as (d & E & H1 & H2 & H3).
      exists d; auto. }
  destruct (_call_openai_vision (server (base64_image image_data))) as [resp|e] eqn:C;
    cbn [bind].
  2:{ destruct (mock_draft_ok filename note_failed) as (d & E & H1 & H2 & H3).
      exists d; auto. }
  destruct (_parse_response resp) as [data|e] eqn:P; cbn [bind].
  2:{ destruct (mock_draft_ok filename note_failed) as (d & E & H1 & H2 & H3).
      exists d; auto. }
  destruct (_build_result data "openai") as [d|e] eqn:B.
  - exists d; split; [reflexivity|].
    destruct (build_result_prices data "openai" d (parse_response_wf resp data P) B)
      as [Hr [Hin | (kvs & p & Hd & Hp & Hpos & Hrec)]];
    destruct (build_result_shape data "openai" d B)
      as (kvs' & mn & mx & conf & _ & _ & _ & _ & _ & T & Src);
    rewrite T; (split; [exact Hr | split; [apply py_prefix_length |]]).
    + left; exact Hin.
    + right; split; [exact Src|].
      subst data; exists resp, kvs, p; auto.
  - destruct (mock_draft_ok filename note_failed) as (d & E & H1 & H2 & H3).
    exists d; auto.
Qed.

(** Counterexample to claim C1: with a key configured and the model text
    [{'price_recommendation_eur': 1000}], the draft has range (2000, 2000)
    and recommended price 100000, above the upper bound. *)
Lemma analyze_price_above_range :
  match analyze_product_image (Some "sk-test")
          (fun _ => openai_response (json_text "{'price_recommendation_eur': 1000}"))
          [] (Some "chair.jpg") with
  | Ok d => estimated_value_range d = (2000, 2000) /\ recommended_price d = 100000 /\
            snd (estimated_value_range d) < recommended_price d
  | Raise _ => False
  end.
Proof. vm_compute; repeat split; reflexivity. Qed.

(** Claim C2: for every JSON text the model may return, a draft built from
    it has [0 < low <= high], and its recommended price lies in
    [[low, high]] unless the model's [price_recommendation_eur] converts to
    a positive whole number [p], in which case the price is [p * 100]
    whatever the range. The fallback draft always has range (2000, 3500)
    and recommended price 2750. *)
Theorem draft_price_within_range (text : string) (src : string)
  (filename : option string) (note : string) :
  match json_loads text with
  | Some data =>
      match _build_result data src with
      | Ok d =>
          0 < fst (estimated_value_range d) <= snd (estimated_value_range d) /\
          (fst (estimated_value_range d) <= recommended_price d
             <= snd (estimated_value_range d)
           \/ exists kvs p, data = JDict kvs /\
                to_int (get kvs "price_recommendation_eur") 0 = Ok p /\ 0 < p /\
                recommended_price d = p * 100)
      | Raise _ => True
      end
  | None => True
  end /\
  exists d, _mock_result filename note = Ok d /\
    estimated_value_range d = (2000, 3500) /\ recommended_price d = 2750.
Proof.
  split.
  - destruct (json_loads text) as [data|] eqn:J; [|exact I].
    destruct (_build_result data src) as [d|e] eqn:B; [|exact I].
    exact (build_result_prices data src d (json_loads_wf text data J) B).
  - destruct (mock_result_spec filename note) as (d & E & R & P & _).
    exists d; auto.
Qed.

(** Counterexample to claim C2: the model text
    [{'price_recommendation_eur': 1000}] gives range (2000, 2000) and
    recommended price 100000. *)
Lemma model_price_not_clamped :
  match json_loads (json_text "{'price_recommendation_eur': 1000}") with
  | Some data =>
      match _build_result data "openai" with
      | Ok d => estimated_value_range d = (2000, 2000) /\ recommended_price d = 100000
      | Raise _ => False
      end
  | None => False
  end.
Proof. vm_compute; split; reflexivity. Qed.

(** Claim C3: for the model text
    [{'estimated_value_eur': {'min': '20', 'max': 35.0}, 'price_recommendation_eur': null}]
    the live draft has range (2000, 3500) but recommended price 2700, not
    2750: [_build_result] truncates the midpoint 27.5 to whole euros before
    converting to cents. [_mock_result], for the same range, computes
    [int(27.5 * 100) = 2750]. *)
Theorem live_midpoint_truncated (image_data : list Byte.byte) (filename : option string) :
  match analyze_product_image (Some "sk-test")
          (fun _ => openai_response (json_text
             "{'estimated_value_eur': {'min': '20', 'max': 35.0}, 'price_recommendation_eur': null}"))
          image_data filename with
  | Ok d => estimated_value_range d = (2000, 3500) /\ recommended_price d = 2700 /\
            source d = "openai"
  | Raise _ => False
  end /\
  exists d, _mock_result filename note_failed = Ok d /\
    estimated_value_range d = (2000, 3500) /\ recommended_price d = 2750.
Proof.
  split.
  - vm_compute; repeat split; reflexivity.
  - destruct (mock_result_spec filename note_failed) as (d & E & R & P & _).
    exists d; auto.
Qed.

(** Claim C4: [OpenAIVisionService._call_openai_vision] is annotated to
    return a [Dict] but does not raise when the call ultimately fails with
    HTTP statuses: for every mix of responses where no attempt answers 200
    and the third attempt gets an HTTP status (429 or any other), it falls
    off its loop after three attempts and returns [None]. *)
Theorem vision_service_returns_none (server : nat -> http_outcome)
  (H0 : succeeds (server 0%nat) = false) (H1 : succeeds (server 1%nat) = false)
  (H2 : succeeds (server 2%nat) = false) (H3 : throws (server 2%nat) = false) :
  fst (vs_call_openai_vision server) = Ok None /\
  attempts (snd (vs_call_openai_vision server)) = 3%nat.
Proof.
  revert H0 H1 H2 H3.
  unfold vs_call_openai_vision, succeeds, throws; cbn [vs_loop].
  repeat match goal with
  | |- context [server ?i] => destruct (server i) as [|?s ?t [?j|]]
  end; cbn;
  repeat match goal with
  | |- context [?a =? ?b] => destruct (a =? b)
  end; cbn; intros; try discriminate; split; reflexivity.
Qed.

Lemma vision_service_returns_none_witness :
  let server := fun n : nat => match n with
                | O => HttpResponse 429 "Too Many Requests" None
                | 1%nat => HttpResponse 500 "Internal Server Error" None
                | _ => HttpResponse 503 "Service Unavailable" None
                end in
  fst (vs_call_openai_vision server) = Ok None /\
  attempts (snd (vs_call_openai_vision server)) = 3%nat.
Proof.
  intros server; apply (vision_service_returns_none server); reflexivity.
Defined.

(** Claim C5: with a key configured, the model reply
    ["I cannot analyze this image."] makes [analyze_product_image] return
    the fallback draft: source ["mock"], and [condition_details] is
    [note_failed], the note used for every failure of the live path. The
    draft is the same as for an HTTP 500, so the note does not say that the
    reply was unparsable. *)
Theorem unparsable_reply_generic_fallback (key : string) (Hkey : str_truthy key = true)
  (image_data : list Byte.byte) (filename : option string) :
  exists d,
    analyze_product_image (Some key)
      (fun _ => openai_response "I cannot analyze this image.") image_data filename = Ok d /\
    source d = "mock" /\ condition_details d = note_failed /\
    analyze_product_image (Some key)
      (fun _ => HttpResponse 500 "Internal Server Error" None) image_data filename = Ok d.
Proof.
  destruct (mock_result_spec filename note_failed) as (d & E & _ & _ & S & _ & C & _).
  exists d.
  rewrite !(analyze_live key _ image_data filename Hkey); cbv beta.
  rewrite reply_unparsable, reply_server_error.
  repeat split; assumption.
Qed.

Lemma unparsable_reply_generic_fallback_witness :
  str_truthy "sk-test" = true /\
  exists d,
    analyze_product_image (Some "sk-test")
      (fun _ => openai_response "I cannot analyze this image.") [] (Some "my_red_chair.jpg")
      = Ok d /\
    source d = "mock" /\ condition_details d = note_failed /\
    analyze_product_image (Some "sk-test")
      (fun _ => HttpResponse 500 "Internal Server Error" None) [] (Some "my_red_chair.jpg")
      = Ok d.
Proof.
  split; [reflexivity|].
  apply (unparsable_reply_generic_fallback "sk-test"); reflexivity.
Defined.

(** Counterexample to claim C5: the draft for the reply
    ["I cannot analyze this image."] equals the draft for an HTTP 503, and
    its [condition_details] is the generic note
    ["OpenAI nicht erreichbar. Demo-Daten generiert."]. *)
Lemma unparsable_reply_same_as_outage :
  analyze_product_image (Some "sk-test")
    (fun _ => openai_response "I cannot analyze this image.") [] (Some "lamp.jpg") =
  analyze_product_image (Some "sk-test")
    (fun _ => HttpResponse 503 "Service Unavailable" None) [] (Some "lamp.jpg") /\
  match analyze_product_image (Some "sk-test")
          (fun _ => openai_response "I cannot analyze this image.") [] (Some "lamp.jpg") with
  | Ok d => condition_details d = "OpenAI nicht erreichbar. Demo-Daten generiert." /\
            source d = "mock"
  | Raise _ => False
  end.
Proof. split; vm_compute; [reflexivity | split; reflexivity]. Qed.

(** Claim C6: without a key (none, or the empty string),
    [analyze_product_image] gives the same result whatever the endpoint
    and the image, for the same file name. It is the fallback draft, with
    source ["mock"] and confidence 0.4. Its product name is
    [mock_product_name filename] and contains no underscore: the extension
    is dropped and underscores become spaces. For example,
    ["my_red_chair.jpg"] gives ["my red chair"]. *)
Theorem no_key_fallback_deterministic (k1 k2 : option string)
  (H1 : k1 = None \/ k1 = Some "") (H2 : k2 = None \/ k2 = Some "")
  (s1 s2 : endpoint) (img1 img2 : list Byte.byte) (filename : option string) :
  analyze_product_image k1 s1 img1 filename = analyze_product_image k2 s2 img2 filename /\
  (exists d, analyze_product_image k1 s1 img1 filename = Ok d /\
    source d = "mock" /\ confidence_score d = decimal_to_float 4 (-1) /\
    name (product d) = mock_product_name filename /\
    py_contains_char "_" (name (product d)) = false) /\
  mock_product_name (Some "my_red_chair.jpg") = "my red chair".
Proof.
  assert (M : forall k s img, k = None \/ k = Some "" ->
            analyze_product_image k s img filename = _mock_result filename note_demo)
    by (intros k s img [-> | ->]; reflexivity).
  rewrite (M k1 s1 img1 H1), (M k2 s2 img2 H2).
  split; [reflexivity | split; [|reflexivity]].
  destruct (mock_result_spec filename note_demo) as (d & E & _ & _ & S & C & _ & N & _).
  exists d; rewrite N; repeat split; try assumption.
  apply mock_name_no_underscore.
Qed.

Lemma no_key_fallback_deterministic_witness :
  (None : option string) = None /\ Some "" = Some "" /\
  (analyze_product_image None (fun _ => HttpClientError) [] (Some "my_red_chair.jpg") =
   analyze_product_image (Some "") (fun _ => openai_response "{}") [Byte.x41]
     (Some "my_red_chair.jpg") /\
  (exists d, analyze_product_image None (fun _ => HttpClientError) [] (Some "my_red_chair.jpg")
     = Ok d /\
    source d = "mock" /\ confidence_score d = decimal_to_float 4 (-1) /\
    name (product d) = mock_product_name (Some "my_red_chair.jpg") /\
    py_contains_char "_" (name (product d)) = false) /\
  mock_product_name (Some "my_red_chair.jpg") = "my red chair").
Proof.
  split; [reflexivity | split; [reflexivity|]].
  apply (no_key_fallback_deterministic None (Some "")); [left | right]; reflexivity.
Defined.

(** Claim C7: for the model text [{'estimated_value_eur': '15-25'}] the
    draft has range (1500, 2500). *)
Theorem range_string_coerced (image_data : list Byte.byte) (filename : option string) :
  match analyze_product_image (Some "sk-test")
          (fun _ => openai_response (json_text "{'estimated_value_eur': '15-25'}"))
          image_data filename with
  | Ok d => estimated_value_range d = (1500, 2500) /\ source d = "openai"
  | Raise _ => False
  end.
Proof. vm_compute; split; reflexivity. Qed.

(** Claim C8: every draft of [analyze_product_image], live or fallback, has
    a title of at most 80 characters. A live title is the stripped model
    title (or the default name) cut to its first 80 characters, and never
    rejected. *)
Theorem listing_title_at_most_80 :
  (forall api_key server image_data filename,
     exists d, analyze_product_image api_key server image_data filename = Ok d /\
       (String.length (listing_title d) <= 80)%nat) /\
  (forall s : string,
     match _build_result (JDict [("listing_title", JStr s)]) "openai" with
     | Ok d => listing_title d =
                 py_prefix 80 (py_strip (if str_truthy s then s else "Unbekanntes Produkt"))
     | Raise _ => False
     end) /\
  (forall s : string, String.length (py_prefix 80 s) = Nat.min 80 (String.length s)).
Proof.
  split; [|split].
  - intros api_key server image_data filename.
    destruct (analyze_draft_ok api_key server image_data filename) as (d & E & _ & L & _).
    exists d; split; assumption.
  - intros s; destruct s; vm_compute; reflexivity.
  - intros s; apply prefix_length_min.
Qed.

(** Claim C9: the fallback draft has confidence 0.4. A live draft has
    confidence [float(v)] for the model's value [v], or 0.6 when [v] is
    missing or falsy; the value is passed through without any clamping to
    [[0.0, 1.0]]. *)
Theorem confidence_score_passthrough (data : jvalue) (src : string)
  (filename : option string) (note : string) :
  match _build_result data src with
  | Ok d => exists kvs, data = JDict kvs /\
      py_float (py_or (get kvs "confidence_score") default_confidence) = Ok (confidence_score d)
  | Raise _ => True
  end /\
  exists d, _mock_result filename note = Ok d /\ confidence_score d = mock_confidence /\
    float_le (float_of_Z 0) mock_confidence = true /\
    float_le mock_confidence (float_of_Z 1) = true.
Proof.
  split.
  - destruct (_build_result data src) as [d|] eqn:B; [|exact I].
    destruct (build_result_shape data src d B)
      as (kvs & mn & mx & conf & E & _ & CF & _ & C & _).
    exists kvs; rewrite C; split; assumption.
  - destruct (mock_result_spec filename note) as (d & E & _ & _ & _ & C & _).
    exists d; repeat split; try assumption; vm_compute; reflexivity.
Qed.

(** Counterexample to claim C9: the model text [{'confidence_score': 5}]
    gives a draft with confidence 5.0, above 1.0. *)
Lemma confidence_above_one :
  match json_loads (json_text "{'confidence_score': 5}") with
  | Some data =>
      match _build_result data "openai" with
      | Ok d => confidence_score d = float_of_Z 5 /\
                float_le (confidence_score d) (float_of_Z 1) = false
      | Raise _ => False
      end
  | None => False
  end.
Proof. vm_compute; split; reflexivity. Qed.

(** Claim C10: when [estimated_value_eur] is a number, a boolean or a
    string without a hyphen, both bounds of the range are [t * 100], where
    [t] is [int(float(value))] truncated toward zero (0 for a string that
    is not a number), replaced by 20 when [t <= 0]. *)
Theorem scalar_range_degenerate (kvs : list (string * jvalue)) (v : jvalue) (src : string)
  (Hv : dget "estimated_value_eur" kvs = Some v) (Hs : scalar_range v = true) :
  match _build_result (JDict kvs) src with
  | Ok d => exists t, to_int v 0 = Ok t /\
      estimated_value_range d =
        ((if t <=? 0 then 20 else t) * 100, (if t <=? 0 then 20 else t) * 100)
  | Raise _ => True
  end.
Proof.
  destruct (_build_result (JDict kvs) src) as [d|] eqn:B; [|exact I].
  destruct (build_result_shape _ src d B) as (kvs' & mn & mx & conf & E & CR & _ & R & _).
  injection E as <-; rewrite Hv in CR.
  destruct (coerce_range_scalar v mn mx Hs CR) as [T ->].
  exists mn; split; [exact T|]; rewrite R.
  destruct (mn <=? 0) eqn:L; destruct (_ <? _) eqn:L2; try reflexivity;
    rewrite ?Z.leb_le, ?Z.leb_gt, ?Z.ltb_lt, ?Z.ltb_ge in L, L2; lia.
Qed.

Lemma scalar_range_degenerate_witness :
  dget "estimated_value_eur" [("estimated_value_eur", JInt 30)] = Some (JInt 30) /\
  scalar_range (JInt 30) = true /\
  match _build_result (JDict [("estimated_value_eur", JInt 30)]) "openai" with
  | Ok d => exists t, to_int (JInt 30) 0 = Ok t /\
      estimated_value_range d =
        ((if t <=? 0 then 20 else t) * 100, (if t <=? 0 then 20 else t) * 100)
  | Raise _ => True
  end.
Proof.
  split; [reflexivity | split; [reflexivity|]].
  apply (scalar_range_degenerate [("estimated_value_eur", JInt 30)] (JInt 30) "openai");
    reflexivity.
Defined.

(** Counterexample to claim C10: the model text
    [{'estimated_value_eur': 30.7}] gives the range (3000, 3000), not
    (3070, 3070); the value 30 also gives (3000, 3000). *)
Lemma scalar_range_truncates :
  match json_loads (json_text "{'estimated_value_eur': 30.7}") with
  | Some data =>
      match _build_result data "openai" with
      | Ok d => estimated_value_range d = (3000, 3000)
      | Raise _ => False
      end
  | None => False
  end /\
  match json_loads (json_text "{'estimated_value_eur': 30}") with
  | Some data =>
      match _build_result data "openai" with
      | Ok d => estimated_value_range d = (3000, 3000)
      | Raise _ => False
      end
  | None => False
  end.
Proof. split; vm_compute; reflexivity. Qed.

(** ** Further properties of the code *)

(** *** Where a draft comes from *)

Lemma analyze_provenance (api_key : option string) (server : endpoint)
  (image_data : list Byte.byte) (filename : option string) :
  exists d, analyze_product_image api_key server image_data filename = Ok d /\
    ((exists note, _mock_result filename note = Ok d) \/
     (exists data, wf_json data = true /\ _build_result data "openai" = Ok d)).
Proof.
  unfold analyze_product_image.
  destruct (match api_key with Some k => str_truthy k | None => false end); cbn [negb].
  2:{ destruct (mock_result_spec filename note_demo) as (d & E & _).
      exists d; split; [exact E | left; exists note_demo; exact E]. }
  destruct (_call_openai_vision (server (base64_image image_data))) as [resp|e];
    cbn [bind].
  2:{ destruct (mock_result_spec filename note_failed) as (d & E & _).
      exists d; split; [exact E | left; exists note_failed; exact E]. }
  destruct (_parse_response resp) as [data|e] eqn:P; cbn [bind].
  2:{ destruct (mock_result_spec filename note_failed) as (d & E & _).
      exists d; split; [exact E | left; exists note_failed; exact E]. }
  destruct (_build_result data "openai") as [d|e] eqn:B.
  - exists d; split; [reflexivity|].
    right; exists data; split; [exact (parse_response_wf resp data P) | exact B].
  - destruct (mock_result_spec filename note_failed) as (d & E & _).
    exists d; split; [exact E | left; exists note_failed; exact E].
Qed.

Lemma build_result_text (data : jvalue) (src : string) (d : ListingDraft) :
  _build_result data src = Ok d ->
  exists kvs, data = JDict kvs /\
    name (product d) = py_str (py_or (get kvs "product_name") (JStr "Unbekanntes Produkt")) /\
    category (product d) = py_str (py_or (get kvs "category") (JStr "Sonstiges")) /\
    condition (product d) = py_str (py_or (get kvs "condition") (JStr "Gebraucht")) /\
    brand (product d) = (let b := py_str (py_or (get kvs "brand") (JStr "")) in
                         if str_truthy b then Some b else None) /\
    features (product d) = to_str_list (get kvs "features") /\
    suggested_keywords d = to_str_list (get kvs "suggested_keywords") /\
    listing_description d =
      (let desc0 := py_strip (py_str (py_or (get kvs "listing_description") (JStr ""))) in
       if str_truthy desc0 then desc0 else
         name (product d) ++ " in " ++ condition (product d) ++ "em Zustand." ++ nl
         ++ "- Kategorie: " ++ category (product d) ++ nl
         ++ "- Versand nach Absprache" ++ nl) /\
    shipping_suggestion d =
      py_str (py_or (get kvs "shipping_suggestion") (JStr "Versand nach Absprache")).
Proof.
  intros H. destruct data as [| | | | | |kvs]; try discriminate H.
  unfold _build_result in H.
  destruct (coerce_range _) as [[mn mx]|]; cbn [bind] in H; [|discriminate].
  destruct (to_int (get kvs "price_recommendation_eur") 0) as [r0|];
    cbn [bind] in H; [|discriminate].
  destruct (r0 <=? 0);
    [destruct (py_truediv_int _ 2) as [f|]; cbn [bind] in H; [|discriminate];
     destruct (py_int_of_float f) as [m|]; cbn [bind] in H; [|discriminate]|];
    (destruct (py_float (py_or (get kvs "confidence_score") default_confidence)) as [conf|];
       cbn [bind] in H; [|discriminate]);
    injection H as <-; exists kvs; repeat split.
Qed.

Lemma mock_result_fields (filename : option string) (note : string) (d : ListingDraft) :
  _mock_result filename note = Ok d ->
  product d = {| name := mock_product_name filename; category := "Sonstiges";
                 condition := "Gebraucht"; brand := None;
                 features := ["Funktionsfaehig"; "Gepflegt"; "Sofort einsatzbereit"] |} /\
  suggested_keywords d = ["gebraucht"; "top zustand"; "schneller versand"] /\
  listing_description d =
    mock_product_name filename ++ " in " ++ "Gebraucht" ++ "em Zustand." ++ nl
    ++ "- Lieferung wie abgebildet" ++ nl
    ++ "- Privatverkauf, keine Garantie" ++ nl /\
  shipping_suggestion d = "DHL Paket oder Abholung".
Proof.
  unfold _mock_result; cbv zeta; rewrite mock_half; cbn [bind]; rewrite mock_price;
    cbn [bind]; intros H; injection H as <-; repeat split.
Qed.

(** *** Non-empty text *)

Lemma str_truthy_app_r (a b : string) : str_truthy b = true -> str_truthy (a ++ b) = true.
Proof. destruct a; cbn; auto. Qed.

Lemma Z_to_string_nonempty (z : Z) : str_truthy (Z_to_string z) = true.
Proof.
  unfold Z_to_string; destruct (z <? 0); [reflexivity|].
  destruct (rev (digits_rev (S (Z.to_nat (Z.log2 (Z.abs z)))) (Z.abs z))) eqn:E;
    [|reflexivity].
  apply (f_equal (@length ascii)) in E; rewrite length_rev in E.
  cbn [digits_rev] in E; destruct (Z.abs z <? 10); discriminate E.
Qed.

Lemma py_str_nonempty (v : jvalue) : truthy v = true -> str_truthy (py_str v) = true.
Proof.
  destruct v as [| [] | z | [m k | neg |] | s | l | kvs]; cbn [truthy py_str py_repr];
    intros H; try discriminate H; try reflexivity; try exact H.
  - apply Z_to_string_nonempty.
  - unfold float_to_string; destruct (0 <=? k); [apply str_truthy_app_r; reflexivity|].
    destruct (m <? 0); [reflexivity | apply str_truthy_app_r; reflexivity].
  - unfold float_to_string; destruct neg; reflexivity.
Qed.

Lemma py_or_nonempty (v : jvalue) (dflt : string) :
  str_truthy dflt = true -> str_truthy (py_str (py_or v (JStr dflt))) = true.
Proof.
  intros H; unfold py_or; destruct (truthy v) eqn:T; [apply py_str_nonempty; exact T | exact H].
Qed.

Lemma mock_name_nonempty (filename : option string) :
  str_truthy (mock_product_name filename) = true.
Proof.
  unfold mock_product_name; destruct filename as [f|]; [|reflexivity].
  destruct (str_truthy f); [|reflexivity]; cbv zeta.
  destruct (str_truthy (py_strip _)) eqn:E; [exact E | reflexivity].
Qed.

(** *** Stripping *)

Lemma drop_space_suffix (l : list ascii) : exists p, l = (p ++ drop_space l)%list.
Proof.
  induction l as [|c r [p IH]]; [exists []; reflexivity|].
  cbn [drop_space]; destruct (py_isspace c).
  - exists (c :: p); cbn; rewrite <- IH; reflexivity.
  - exists []; reflexivity.
Qed.

Lemma drop_space_head (l : list ascii) (c : ascii) (r : list ascii) :
  drop_space l = c :: r -> py_isspace c = false.
Proof.
  induction l as [|d l IH]; cbn [drop_space]; [discriminate|].
  destruct (py_isspace d) eqn:S; [exact IH|].
  intros H; injection H as <- _; exact S.
Qed.

Lemma drop_space_keep (l : list ascii) :
  (forall c r, l = c :: r -> py_isspace c = false) -> drop_space l = l.
Proof.
  destruct l as [|c r]; intros H; [reflexivity|].
  cbn [drop_space]; rewrite (H c r eq_refl); reflexivity.
Qed.

Lemma drop_space_idem (l : list ascii) : drop_space (drop_space l) = drop_space l.
Proof. apply drop_space_keep; intros c r H; exact (drop_space_head l c r H). Qed.

Lemma strip_idem (s : string) : py_strip (py_strip s) = py_strip s.
Proof.
  unfold py_strip; rewrite list_ascii_of_string_of_list_ascii.
  set (l := list_ascii_of_string s).
  set (m := drop_space (rev (drop_space l))).
  assert (A : drop_space (rev m) = rev m).
  { apply drop_space_keep; intros c r Hc.
    destruct (drop_space_suffix (rev (drop_space l))) as [p Hp].
    fold m in Hp.
    apply (drop_space_head l c (r ++ rev p)%list).
    rewrite <- (rev_involutive (drop_space l)), Hp, rev_app_distr, Hc; reflexivity. }
  rewrite A, rev_involutive; unfold m; rewrite drop_space_idem; reflexivity.
Qed.

Lemma to_str_list_clean (v : jvalue) :
  Forall (fun k => str_truthy k = true /\ py_strip k = k) (to_str_list v).
Proof.
  destruct v; try constructor.
  apply Forall_forall; intros k Hk; apply in_map_iff in Hk as (x & <- & Hx).
  apply filter_In in Hx as [_ T]; split; [exact T | apply strip_idem].
Qed.

Lemma strip_all_space (s : string) :
  forallb py_isspace (list_ascii_of_string s) = true -> py_strip s = "".
Proof.
  unfold py_strip; intros H.
  assert (D : drop_space (list_ascii_of_string s) = []).
  { induction (list_ascii_of_string s) as [|c r IH]; [reflexivity|].
    cbn [forallb] in H; apply andb_true_iff in H as [Hc Hr].
    cbn [drop_space]; rewrite Hc; exact (IH Hr). }
  rewrite D; reflexivity.
Qed.

(** *** Conversion errors *)

Lemma to_int_raise (v : jvalue) (default : Z) (e : exn) :
  to_int v default = Raise e -> e = OverflowError.
Proof.
  unfold to_int; destruct (py_float v) as [f|e'] eqn:F; cbn [bind].
  - destruct f; cbn; intros H; try discriminate H; injection H as <-; reflexivity.
  - destruct e'; intros H; try discriminate H; injection H as <-; try reflexivity;
      destruct v; cbn in F; try discriminate F;
      try (unfold py_float_of_int in F; destruct (float_of_Z _); discriminate F);
      destruct (py_float_of_string _); discriminate F.
Qed.

Lemma coerce_range_raise (v : jvalue) (e : exn) :
  coerce_range v = Raise e -> e = OverflowError.
Proof.
  unfold coerce_range; destruct v; intros H; try discriminate H.
  all: repeat match type of H with
         | context [py_contains_char ?c ?s] => destruct (py_contains_char c s)
         | context [split_first ?c ?l] => destruct (split_first c l)
         end.
  all: repeat match type of H with
         | context [to_int ?x ?y] =>
             let E := fresh "E" in
             destruct (to_int x y) eqn:E; cbn [bind] in H;
             [|injection H as <-; exact (to_int_raise _ _ _ E)]
         end; discriminate H.
Qed.

(** *** Base64 *)

Lemma length_string_of_list_ascii (l : list ascii) :
  String.length (string_of_list_ascii l) = length l.
Proof. induction l; cbn; auto. Qed.

Lemma b64_encode_length (l : list Z) :
  length (b64_encode l) = (4 * ((length l + 2) / 3))%nat.
Proof.
  assert (G : forall n l, (length l <= n)%nat ->
            length (b64_encode l) = (4 * ((length l + 2) / 3))%nat).
  { induction n as [|n IH]; intros l' Hl.
    - destruct l'; [reflexivity | cbn in Hl; lia].
    - destruct l' as [|a [|b [|c r]]]; try reflexivity.
      cbn [b64_encode length]; rewrite IH by (cbn in Hl; lia).
      replace (S (S (S (length r))) + 2)%nat with (length r + 2 + 1 * 3)%nat by lia.
      rewrite Nat.div_add by lia; lia. }
  apply G with (n := length l); lia.
Qed.

(** *** Extra properties *)

(** [to_int] catches [TypeError] and [ValueError] only: it raises nothing but
    [OverflowError], and only when [float(value)] is infinite or the value is
    an int too large for a float. *)
Theorem to_int_raises_only_overflow (v : jvalue) (default : Z) :
  match to_int v default with
  | Ok _ => True
  | Raise e => e = OverflowError /\
      ((exists neg, py_float v = Ok (Inf neg)) \/ py_float v = Raise OverflowError)
  end.
Proof.
  destruct (to_int v default) as [z|e] eqn:T; [exact I|].
  pose proof (to_int_raise v default e T) as ->.
  split; [reflexivity|].
  revert T; unfold to_int; destruct (py_float v) as [f|e'] eqn:F; cbn [bind].
  - destruct f as [m k|neg|]; cbn; intros H; try discriminate H.
    left; exists neg; reflexivity.
  - destruct e'; intros H; try discriminate H; right; reflexivity.
Qed.

(** With a key configured, a reply whose [estimated_value_eur] or
    [price_recommendation_eur] is an infinite float (JSON [Infinity] or a
    literal such as [1e400]) makes [_build_result] raise [OverflowError],
    and [analyze_product_image] returns the fallback draft. *)
Theorem infinite_price_falls_back (key : string) (server : endpoint)
  (image_data : list Byte.byte) (filename : option string) (response : jvalue)
  (kvs : list (string * jvalue)) (neg : bool)
  (Hkey : str_truthy key = true)
  (Hcall : _call_openai_vision (server (base64_image image_data)) = Ok response)
  (Hparse : _parse_response response = Ok (JDict kvs))
  (Hinf : dget "estimated_value_eur" kvs = Some (JFloat (Inf neg)) \/
          dget "price_recommendation_eur" kvs = Some (JFloat (Inf neg))) :
  _build_result (JDict kvs) "openai" = Raise OverflowError /\
  analyze_product_image (Some key) server image_data filename =
    _mock_result filename note_failed.
Proof.
  assert (B : _build_result (JDict kvs) "openai" = Raise OverflowError).
  { unfold _build_result.
    destruct Hinf as [H | H].
    - rewrite H; reflexivity.
    - destruct (coerce_range _) as [[mn mx]|e] eqn:CR; cbn [bind].
      + unfold get; rewrite H; reflexivity.
      + rewrite (coerce_range_raise _ e CR); reflexivity. }
  split; [exact B|].
  rewrite (analyze_live key server image_data filename Hkey), Hcall; cbn [bind].
  rewrite Hparse; cbn [bind]; rewrite B; reflexivity.
Qed.

Lemma infinite_price_falls_back_witness :
  str_truthy "sk-test" = true /\
  _call_openai_vision ((fun _ => openai_response (json_text "{'estimated_value_eur': 1e400}"))
                         (base64_image [])) =
    Ok (JDict [("choices", JList [JDict [("message", JDict [("content",
          JStr (json_text "{'estimated_value_eur': 1e400}"))])]])]) /\
  _parse_response (JDict [("choices", JList [JDict [("message", JDict [("content",
          JStr (json_text "{'estimated_value_eur': 1e400}"))])]])]) =
    Ok (JDict [("estimated_value_eur", JFloat (Inf false))]) /\
  (dget "estimated_value_eur" [("estimated_value_eur", JFloat (Inf false))] =
     Some (JFloat (Inf false)) \/
   dget "price_recommendation_eur" [("estimated_value_eur", JFloat (Inf false))] =
     Some (JFloat (Inf false))) /\
  (_build_result (JDict [("estimated_value_eur", JFloat (Inf false))]) "openai" =
     Raise OverflowError /\
   analyze_product_image (Some "sk-test")
     (fun _ => openai_response (json_text "{'estimated_value_eur': 1e400}")) []
     (Some "lamp.jpg") = _mock_result (Some "lamp.jpg") note_failed).
Proof.
  split; [reflexivity|]. split; [reflexivity|]. split; [vm_compute; reflexivity|].
  split; [left; reflexivity|].
  apply (infinite_price_falls_back "sk-test"
           (fun _ => openai_response (json_text "{'estimated_value_eur': 1e400}")) []
           (Some "lamp.jpg")
           (JDict [("choices", JList [JDict [("message", JDict [("content",
              JStr (json_text "{'estimated_value_eur': 1e400}"))])]])])
           [("estimated_value_eur", JFloat (Inf false))] false);
    [reflexivity | reflexivity | vm_compute; reflexivity | left; reflexivity].
Defined.

(** With a key configured, a reply whose [confidence_score] is truthy but
    rejected by [float()] (a non-numeric string, a list or an object)
    discards the whole reply: [analyze_product_image] returns the fallback
    draft, whatever the other fields. *)
Theorem bad_confidence_falls_back (key : string) (server : endpoint)
  (image_data : list Byte.byte) (filename : option string) (response : jvalue)
  (kvs : list (string * jvalue)) (v : jvalue) (e : exn)
  (Hkey : str_truthy key = true)
  (Hcall : _call_openai_vision (server (base64_image image_data)) = Ok response)
  (Hparse : _parse_response response = Ok (JDict kvs))
  (Hconf : dget "confidence_score" kvs = Some v)
  (Htruthy : truthy v = true) (Hfloat : py_float v = Raise e) :
  analyze_product_image (Some key) server image_data filename =
    _mock_result filename note_failed.
Proof.
  rewrite (analyze_live key server image_data filename Hkey), Hcall; cbn [bind].
  rewrite Hparse; cbn [bind].
  destruct (_build_result (JDict kvs) "openai") as [d|e'] eqn:B; [|reflexivity].
  exfalso.
  destruct (build_result_shape _ _ d B) as (kvs' & mn & mx & conf & E & _ & CF & _).
  injection E as <-.
  unfold get, py_or in CF; rewrite Hconf, Htruthy, Hfloat in CF; discriminate CF.
Qed.

Lemma bad_confidence_falls_back_witness :
  str_truthy "sk-test" = true /\
  _call_openai_vision ((fun _ => openai_response
                          (json_text "{'product_name': 'Lamp', 'confidence_score': 'high'}"))
                         (base64_image [])) =
    Ok (JDict [("choices", JList [JDict [("message", JDict [("content",
          JStr (json_text "{'product_name': 'Lamp', 'confidence_score': 'high'}"))])]])]) /\
  _parse_response (JDict [("choices", JList [JDict [("message", JDict [("content",
          JStr (json_text "{'product_name': 'Lamp', 'confidence_score': 'high'}"))])]])]) =
    Ok (JDict [("product_name", JStr "Lamp"); ("confidence_score", JStr "high")]) /\
  dget "confidence_score" [("product_name", JStr "Lamp"); ("confidence_score", JStr "high")] =
    Some (JStr "high") /\
  truthy (JStr "high") = true /\
  py_float (JStr "high") = Raise (ValueError "could not convert string to float") /\
  analyze_product_image (Some "sk-test")
    (fun _ => openai_response (json_text "{'product_name': 'Lamp', 'confidence_score': 'high'}"))
    [] (Some "lamp.jpg") = _mock_result (Some "lamp.jpg") note_failed.
Proof.
  split; [reflexivity|]. split; [reflexivity|]. split; [vm_compute; reflexivity|].
  split; [reflexivity|]. split; [reflexivity|]. split; [vm_compute; reflexivity|].
  apply (bad_confidence_falls_back "sk-test"
           (fun _ => openai_response
              (json_text "{'product_name': 'Lamp', 'confidence_score': 'high'}")) []
           (Some "lamp.jpg")
           (JDict [("choices", JList [JDict [("message", JDict [("content",
              JStr (json_text "{'product_name': 'Lamp', 'confidence_score': 'high'}"))])]])])
           [("product_name", JStr "Lamp"); ("confidence_score", JStr "high")]
           (JStr "high") (ValueError "could not convert string to float"));
    [reflexivity | reflexivity | vm_compute; reflexivity | reflexivity | reflexivity
    | vm_compute; reflexivity].
Defined.

(** Every draft of [analyze_product_image], live or fallback, has a
    non-empty product name, category, condition, description and shipping
    suggestion, and a brand, when there is one, is non-empty. *)
Theorem draft_text_nonempty (api_key : option string) (server : endpoint)
  (image_data : list Byte.byte) (filename : option string) :
  exists d, analyze_product_image api_key server image_data filename = Ok d /\
    str_truthy (name (product d)) = true /\ str_truthy (category (product d)) = true /\
    str_truthy (condition (product d)) = true /\
    str_truthy (listing_description d) = true /\
    str_truthy (shipping_suggestion d) = true /\
    match brand (product d) with Some b => str_truthy b = true | None => True end.
Proof.
  destruct (analyze_provenance api_key server image_data filename)
    as (d & E & [(note & M) | (data & _ & B)]); exists d; split; try exact E.
  - destruct (mock_result_fields filename note d M) as (P & _ & D & S).
    rewrite P, D, S; cbn [name category condition brand].
    repeat split; try reflexivity; try apply str_truthy_app_r; try reflexivity;
      apply mock_name_nonempty.
  - destruct (build_result_text data "openai" d B) as (kvs & _ & N & C & Co & Br & _ & _ & D & S).
    rewrite D, S, Br, C, Co; rewrite N at 1; cbv zeta.
    repeat split; try (apply py_or_nonempty; reflexivity).
    + destruct (str_truthy (py_strip _)) eqn:T; [exact T | apply str_truthy_app_r; reflexivity].
    + destruct (str_truthy (py_str _)) eqn:T; [exact T | exact I].
Qed.

(** Every keyword and every feature of a draft is non-empty and has no
    surrounding whitespace: [to_str_list] strips each item and drops the
    empty ones, and stripping twice changes nothing. *)
Theorem keywords_features_stripped (api_key : option string) (server : endpoint)
  (image_data : list Byte.byte) (filename : option string) :
  exists d, analyze_product_image api_key server image_data filename = Ok d /\
    Forall (fun k => str_truthy k = true /\ py_strip k = k) (suggested_keywords d) /\
    Forall (fun k => str_truthy k = true /\ py_strip k = k) (features (product d)).
Proof.
  destruct (analyze_provenance api_key server image_data filename)
    as (d & E & [(note & M) | (data & _ & B)]); exists d; split; try exact E.
  - destruct (mock_result_fields filename note d M) as (P & K & _).
    rewrite K, P; cbn [features].
    split; repeat constructor; vm_compute; reflexivity.
  - destruct (build_result_text data "openai" d B) as (kvs & _ & _ & _ & _ & _ & F & K & _).
    rewrite F, K; split; apply to_str_list_clean.
Qed.

(** A live title that is a non-empty string of whitespace only is not
    replaced by the product name: it is stripped to the empty title. *)
Theorem whitespace_title_empty (kvs : list (string * jvalue)) (s : string) (src : string)
  (Hv : dget "listing_title" kvs = Some (JStr s)) (Hs : str_truthy s = true)
  (Hw : forallb py_isspace (list_ascii_of_string s) = true) :
  match _build_result (JDict kvs) src with
  | Ok d => listing_title d = ""
  | Raise _ => True
  end.
Proof.
  destruct (_build_result (JDict kvs) src) as [d|] eqn:B; [|exact I].
  destruct (build_result_shape _ src d B) as (kvs' & _ & _ & _ & E & _ & _ & _ & _ & T & _).
  injection E as <-; rewrite T.
  unfold get, py_or; rewrite Hv; cbn [truthy]; rewrite Hs; cbn [py_str].
  rewrite (strip_all_space s Hw); reflexivity.
Qed.

Lemma whitespace_title_empty_witness :
  dget "listing_title" [("listing_title", JStr "   ")] = Some (JStr "   ") /\
  str_truthy "   " = true /\
  forallb py_isspace (list_ascii_of_string "   ") = true /\
  match _build_result (JDict [("listing_title", JStr "   ")]) "openai" with
  | Ok d => listing_title d = ""
  | Raise _ => True
  end.
Proof.
  split; [reflexivity|]. split; [reflexivity|]. split; [reflexivity|].
  apply (whitespace_title_empty [("listing_title", JStr "   ")] "   " "openai");
    reflexivity.
Defined.

(** [OpenAIVisionService._call_openai_vision] makes at most three attempts
    and sleeps at most 7 seconds in all. It returns the body of the first
    200 response that has one, or [None] when no attempt got one; it raises
    only when no attempt succeeded and the third one raised. *)
Theorem vision_service_outcome (server : nat -> http_outcome) :
  (attempts (snd (vs_call_openai_vision server)) <= 3)%nat /\
  sleep_total (snd (vs_call_openai_vision server)) <= 7 /\
  match fst (vs_call_openai_vision server) with
  | Ok o => o = first_success [server 0%nat; server 1%nat; server 2%nat]
  | Raise _ => first_success [server 0%nat; server 1%nat; server 2%nat] = None /\
               throws (server 2%nat) = true
  end.
Proof.
  unfold vs_call_openai_vision, first_success, throws; cbn [vs_loop find].
  repeat match goal with
  | |- context [server ?i] => destruct (server i) as [|?s ?t [?j|]]
  end; cbn;
  repeat match goal with
  | |- context [?a =? ?b] => destruct (a =? b)
  end; cbn; repeat split; try reflexivity; lia.
Qed.

(** [GET /health] reports mode ["mock"] exactly when [analyze_product_image]
    never uses the endpoint: it then returns the demo draft for every
    endpoint and image. In mode ["openai"] every draft it returns is a live
    draft (source ["openai"]) or the fallback with the failure note, whatever
    the endpoint does; a reply [{}] gives a live draft. *)
Theorem health_mode_consistent (api_key : option string) :
  (dget "mode" (health_check api_key) = Some (JStr "mock") /\
   forall server image_data filename,
     analyze_product_image api_key server image_data filename =
       _mock_result filename note_demo)
  \/
  (dget "mode" (health_check api_key) = Some (JStr "openai") /\
   (forall server image_data filename, exists d,
      analyze_product_image api_key server image_data filename = Ok d /\
      (source d = "openai" \/ _mock_result filename note_failed = Ok d)) /\
   (forall image_data filename, exists d,
      analyze_product_image api_key (fun _ => openai_response "{}") image_data filename = Ok d /\
      source d = "openai")).
Proof.
  unfold health_check.
  destruct api_key as [k|].
  2:{ left; split; [reflexivity|]. intros server image_data filename; reflexivity. }
  cbn [is_live].
  destruct (str_truthy k) eqn:L; [right | left]; (split; [reflexivity|]).
  - split.
    + intros server image_data filename.
      rewrite (analyze_live k server image_data filename L).
      destruct (_call_openai_vision (server (base64_image image_data))) as [resp|e]; cbn [bind].
      2:{ destruct (mock_result_spec filename note_failed) as (d & E & _).
          exists d; split; [exact E | right; exact E]. }
      destruct (_parse_response resp) as [data|e]; cbn [bind].
      2:{ destruct (mock_result_spec filename note_failed) as (d & E & _).
          exists d; split; [exact E | right; exact E]. }
      destruct (_build_result data "openai") as [d|e] eqn:B.
      * exists d; split; [reflexivity | left].
        destruct (build_result_shape data "openai" d B)
          as (kvs' & mn & mx & conf & _ & _ & _ & _ & _ & _ & Src); exact Src.
      * destruct (mock_result_spec filename note_failed) as (d & E & _).
        exists d; split; [exact E | right; exact E].
    + intros image_data filename.
      rewrite (analyze_live k _ image_data filename L); cbv beta.
      match goal with |- context [match ?x with Ok d => _ | Raise _ => _ end] =>
        destruct x as [d|e] eqn:A end.
      * exists d; split; [reflexivity|]; vm_compute in A; injection A as <-; reflexivity.
      * vm_compute in A; discriminate A.
  - intros server image_data filename; unfold analyze_product_image; rewrite L; reflexivity.
Qed.

(** The image is sent as base64 text of [4 * ceil(n / 3)] characters for
    [n] bytes. *)
Theorem base64_image_length (image_data : list Byte.byte) :
  String.length (base64_image image_data) = (4 * ((length image_data + 2) / 3))%nat.
Proof.
  unfold base64_image; rewrite length_string_of_list_ascii, b64_encode_length, length_map.
  reflexivity.
Qed.
